(** * Module 09: PostGIS spatial property search

    A shallow embedding of [modules/module_09/example.py]: the class
    [PropertySearchModule] with its constructor, [setup_postgis_tables],
    [find_nearby_properties] and [analyze_market_density].

    The script is a sequence of SQL statements sent through a database
    driver.  Each method is embedded as a function on an explicit database
    state; each SQL statement is embedded by its relational meaning (WHERE
    as a filter under three-valued logic, GROUP BY / HAVING as grouping,
    ORDER BY as a sort, LIMIT as a prefix).

    Numbers.  Values of the SQL types [numeric] and [double precision] are
    modelled as rationals [Q] with exact arithmetic: the binary64 rounding
    of the engine, and the finite scale of a [numeric] quotient, are not
    modelled.  Equality of numbers is [Qeq] ([==]), as in SQL, where 1.0
    and 1.00 are equal. *)

From Stdlib Require Import QArith Qround ZArith List Sorting.Sorted Lia Lqa.
From stdpp Require Import gmap strings sorting.

Local Open Scope string_scope.
Local Open Scope Z_scope.

(** ** Results of a database call

    A statement either succeeds or raises a driver exception; the script
    catches none of them, so an exception ends the method. *)

Inductive sql_error : Type :=
  | UndefinedFile (extension : string)
  | UndefinedTable (relname : string)
  | WrongObjectType (relname : string)
  | InvalidTolerance.

Inductive result (A : Type) : Type :=
  | Ok (a : A)
  | Err (e : sql_error).

Arguments Ok {A} a.
Arguments Err {A} e.

Global Instance result_ret : MRet result := @Ok.

Global Instance result_bind : MBind result := λ A B k m,
  match m with
  | Ok a => k a
  | Err e => Err e
  end.

(** ** Numbers *)

Definition half : Q := 1 # 2.

(** C [rint] in the default rounding mode: nearest integer, ties to even.
    [ST_SnapToGrid] rounds with it. *)
Definition rint (q : Q) : Z :=
  let f := Qfloor q in
  match (q - inject_Z f ?= half)%Q with
  | Lt => f
  | Gt => f + 1
  | Eq => if Z.even f then f else f + 1
  end.

(** SQL [ROUND(numeric, 0)]: nearest integer, ties away from zero. *)
Definition ROUND (q : Q) : Z :=
  if Qle_bool 0 q then Qfloor (q + half) else - Qfloor (- q + half).

(** ** Data model: the table [properties] *)

Module Geometry.
(** A value of [GEOMETRY(POINT, 4326)]: X is the longitude, Y the
    latitude.  A location that is present is a point with both
    coordinates. *)
Record t : Type := mk { x : Q; y : Q }.

Definition eqb (a b : t) : bool := Qeq_bool (x a) (x b) && Qeq_bool (y a) (y b).
End Geometry.

Module Property.
Record t : Type := mk {
  id : Z;
  address : string;
  price : option Q;
  bedrooms : option Z;
  bathrooms : option Q;
  square_feet : option Z;
  property_type : option string;
  listing_status : option string;
  location : option Geometry.t;
  created_at : option Z
}.
End Property.

(** ** Database state: extensions and the relation namespace

    Tables and indexes live in one namespace.  A [Table] is a table with
    the column layout of the script's CREATE TABLE; [OtherRelation] is a
    relation that is not a table and not an index (a view, a sequence).
    [available_extensions] are the extensions that the server can install.

    The state follows the names that the script itself uses.  Not
    represented: a table named properties with another column layout, and
    the relations that the statements create on their own account (the
    sequence and the primary-key index of the table, the catalog tables of
    the extension).  The properties below are stated so that they do not
    depend on either. *)

Record index_def : Type := mk_index {
  idx_table : string;
  idx_method : string;
  idx_column : string
}.

Inductive pg_class : Type :=
  | Table (rows : list Property.t)
  | Index (d : index_def)
  | OtherRelation.

Record database : Type := mk_database {
  available_extensions : gset string;
  extensions : gset string;
  relations : gmap string pg_class
}.

(** ** Standard output

    What the methods print, line by line, with the values each line is
    formatted from. *)

Inductive line : Type :=
  | RunningDemo
  | DemoCompleted
  | TablesCreated
  | FoundHeader (n : nat) (radius_km : Q)
  | NearbyLine (address : string) (price : Q) (distance_m : Z)
  | DensityHeader
  | DensityLine (prop_type : string) (avg_price : Z) (count : Z).

(** ** Connection setup: [PropertySearchModule.__init__] *)

(** [load_dotenv()]: entries of the .env file are added to the environment;
    a variable that is already set keeps its value. *)
Definition load_dotenv (dotenv environ : gmap string string) : gmap string string :=
  environ ∪ dotenv.

(** [os.getenv(key, default)]. *)
Definition getenv (environ : gmap string string) (key dflt : string) : string :=
  default dflt (environ !! key).

Inductive cursor_factory_t : Type := DefaultCursor | RealDictCursor.

(** The keyword arguments of [psycopg2.connect]. *)
Record connect_args : Type := mk_connect_args {
  host : string;
  dbname : string;
  user : string;
  password : string;
  cursor_factory : cursor_factory_t
}.

Definition __init__ (environ : gmap string string) : connect_args :=
  {| host := getenv environ "DB_HOST" "localhost";
     dbname := getenv environ "DB_NAME" "property_search";
     user := getenv environ "DB_USER" "postgres";
     password := getenv environ "DB_PASSWORD" "password";
     cursor_factory := RealDictCursor |}.

(** ** Schema initialization: [setup_postgis_tables] *)

(** CREATE EXTENSION IF NOT EXISTS name.  The relations that belong to the
    extension are not entered in [relations]. *)
Definition create_extension_if_not_exists (name : string) (db : database)
  : result database :=
  if decide (name ∈ extensions db) then Ok db
  else if decide (name ∈ available_extensions db) then
    Ok {| available_extensions := available_extensions db;
          extensions := {[ name ]} ∪ extensions db;
          relations := relations db |}
  else Err (UndefinedFile name).

(** CREATE TABLE IF NOT EXISTS name (...): skipped when any relation has
    the name; the new table has no rows.  The sequence of the SERIAL column
    and the primary-key index are not entered in [relations]. *)
Definition create_table_if_not_exists (name : string) (db : database)
  : result database :=
  match relations db !! name with
  | Some _ => Ok db
  | None =>
      Ok {| available_extensions := available_extensions db;
            extensions := extensions db;
            relations := <[ name := Table [] ]> (relations db) |}
  end.

(** CREATE INDEX IF NOT EXISTS name ON tbl USING method (column): the
    table is looked up first; the statement is skipped when any relation
    has the index name. *)
Definition create_index_if_not_exists (name tbl method column : string)
  (db : database) : result database :=
  match relations db !! tbl with
  | None => Err (UndefinedTable tbl)
  | Some (Table _) =>
      match relations db !! name with
      | Some _ => Ok db
      | None =>
          Ok {| available_extensions := available_extensions db;
                extensions := extensions db;
                relations :=
                  <[ name := Index (mk_index tbl method column) ]> (relations db) |}
      end
  | Some _ => Err (WrongObjectType tbl)
  end.

Definition setup_postgis_tables (db : database) : result (database * list line) :=
  db1 ← create_extension_if_not_exists "postgis" db;
  db2 ← create_table_if_not_exists "properties" db1;
  db3 ← create_index_if_not_exists
          "idx_properties_location" "properties" "GIST" "location" db2;
  Ok (db3, [TablesCreated]).

(** ** Pieces of SQL shared by both queries *)

(** FROM name: the rows of the table of that name. *)
Definition from_table (name : string) (db : database) : result (list Property.t) :=
  match relations db !! name with
  | None => Err (UndefinedTable name)
  | Some (Table rows) => Ok rows
  | Some _ => Err (WrongObjectType name)
  end.

(** SQL truth values: [None] is NULL (unknown). *)
Definition sql_and (a b : option bool) : option bool :=
  match a, b with
  | Some false, _ | _, Some false => Some false
  | Some true, Some true => Some true
  | _, _ => None
  end.

(** column = 'literal' on a nullable text column. *)
Definition sql_eq_text (c : option string) (lit : string) : option bool :=
  match c with
  | None => None
  | Some s => Some (bool_decide (s = lit))
  end.

(** column IS NOT NULL. *)
Definition is_not_null {A : Type} (c : option A) : option bool :=
  Some (match c with Some _ => true | None => false end).

(** WHERE keeps the rows on which the condition is TRUE, dropping those on
    which it is FALSE or NULL; an error raised on any row ends the query.
    The condition is evaluated on every row, as by a sequential scan. *)
Fixpoint select_where {A : Type} (cond : A → result (option bool))
  (rows : list A) : result (list A) :=
  match rows with
  | [] => Ok []
  | r :: rows' =>
      c ← cond r;
      rest ← select_where cond rows';
      Ok (match c with Some true => r :: rest | _ => rest end)
  end.

(** The rows that WHERE keeps. *)
Definition holds {A : Type} (cond : A → result (option bool)) (r : A) : bool :=
  match cond r with
  | Ok (Some true) => true
  | _ => false
  end.

(** ORDER BY on a nullable number, ascending: NULLS LAST. *)
Definition nulls_last_leb (a b : option Q) : bool :=
  match a, b with
  | Some u, Some v => Qle_bool u v
  | _, None => true
  | None, Some _ => false
  end.

(** [ST_GeomFromText('POINT(a b)', srid)]: in well-known text the first
    number is the X coordinate and the second the Y coordinate.  The column
    and both literals of the script carry SRID 4326, so the SRID is not
    kept in the value. *)
Definition ST_GeomFromText_POINT (a b : Q) (srid : Z) : Geometry.t :=
  Geometry.mk a b.

(** The two conversion constants of the script. *)
Definition meters_per_degree : Q := inject_Z 111320.
Definition km_per_degree : Q := 11132 # 100.

(** ** Proximity search: [find_nearby_properties] *)

Module NearbyRow.
(** One record of the result, keyed by the names of the select list. *)
Record t : Type := mk {
  id : Z;
  address : string;
  price : option Q;
  bedrooms : option Z;
  bathrooms : option Q;
  property_type : option string;
  square_feet : option Z;
  distance_meters : option Q
}.
End NearbyRow.

(** ORDER BY distance_meters. *)
Definition distance_le (r1 r2 : NearbyRow.t) : Prop :=
  nulls_last_leb (NearbyRow.distance_meters r1) (NearbyRow.distance_meters r2).

(** Python [x or d] on a nullable number: [None] and zero give [d]. *)
Definition or_num (x : option Q) (d : Q) : Q :=
  match x with
  | Some v => if Qeq_bool v 0 then d else v
  | None => d
  end.

(** Python [s or d] on a string: the empty string gives [d]. *)
Definition or_str (s : string) (d : string) : string :=
  if bool_decide (s = "") then d else s.

Section ProximitySearch.

(** [ST_Distance] on two point geometries: the planar distance in the
    units of the coordinates (degrees), computed by the spatial engine. *)
Variable ST_Distance : Geometry.t → Geometry.t → Q.

(** [ST_DWithin(g1, g2, tolerance)]: whether the distance is at most the
    tolerance; the engine rejects a negative tolerance. *)
Definition ST_DWithin (g1 g2 : Geometry.t) (tolerance : Q) : result bool :=
  if Qle_bool 0 tolerance then Ok (Qle_bool (ST_Distance g1 g2) tolerance)
  else Err InvalidTolerance.

(** The WHERE clause of the query, with the third, fourth and fifth
    placeholder.  [ST_DWithin] is strict: on a NULL location it is not
    called and yields NULL. *)
Definition nearby_where (p3 p4 p5 : Q) (p : Property.t) : result (option bool) :=
  within ←
    match Property.location p with
    | None => Ok None
    | Some g =>
        b ← ST_DWithin g (ST_GeomFromText_POINT p3 p4 4326) (p5 / km_per_degree)%Q;
        Ok (Some b)
    end;
  Ok (sql_and within (sql_eq_text (Property.listing_status p) "active")).

(** The select list of the query, with the first and second placeholder. *)
Definition nearby_select (p1 p2 : Q) (p : Property.t) : NearbyRow.t :=
  {| NearbyRow.id := Property.id p;
     NearbyRow.address := Property.address p;
     NearbyRow.price := Property.price p;
     NearbyRow.bedrooms := Property.bedrooms p;
     NearbyRow.bathrooms := Property.bathrooms p;
     NearbyRow.property_type := Property.property_type p;
     NearbyRow.square_feet := Property.square_feet p;
     NearbyRow.distance_meters :=
       match Property.location p with
       | None => None
       | Some g =>
           Some (ST_Distance g (ST_GeomFromText_POINT p1 p2 4326) * meters_per_degree)%Q
       end |}.

(** The query text with its five positional placeholders, in the order
    in which they occur in the text.  The engine does not fix the order of
    rows of equal distance; the model takes the order of a merge sort. *)
Definition nearby_query (p1 p2 p3 p4 p5 : Q) (db : database)
  : result (list NearbyRow.t) :=
  rows ← from_table "properties" db;
  kept ← select_where (nearby_where p3 p4 p5) rows;
  Ok (take 20 (merge_sort distance_le (nearby_select p1 p2 <$> kept))).

Definition nearby_line (prop : NearbyRow.t) : line :=
  let distance_m := or_num (NearbyRow.distance_meters prop) 0 in
  let price := or_num (NearbyRow.price prop) 0 in
  let address := or_str (NearbyRow.address prop) "Unknown Address" in
  NearbyLine address price (rint distance_m).

(** [cursor.execute(query, (lng, lat, lng, lat, radius_km))], then
    [fetchall], the printed summary of the first five rows, and the
    return of all rows. *)
Definition find_nearby_properties (db : database) (lat lng radius_km : Q)
  : result (list NearbyRow.t * list line) :=
  results ← nearby_query lng lat lng lat radius_km db;
  Ok (results,
      FoundHeader (length results) radius_km :: (nearby_line <$> take 5 results)).

(** The default of the third argument: [radius_km=5]. *)
Definition find_nearby_properties_default (db : database) (lat lng : Q) :=
  find_nearby_properties db lat lng 5.

End ProximitySearch.

(** ** Market density: [analyze_market_density] *)

(** [ST_SnapToGrid(g, size)]: each coordinate is moved to the nearest
    multiple of the cell size; a size that is not positive leaves the
    coordinate as it is. *)
Definition snap_coordinate (c size : Q) : Q :=
  if Qle_bool size 0 then c else (inject_Z (rint (c / size)) * size)%Q.

Definition ST_SnapToGrid (g : Geometry.t) (size : Q) : Geometry.t :=
  {| Geometry.x := snap_coordinate (Geometry.x g) size;
     Geometry.y := snap_coordinate (Geometry.y g) size |}.

Definition grid_size : Q := 1 # 100.

(** [AVG] over a nullable numeric column: the mean of the values that are
    not NULL, and NULL when there is none. *)
Definition sum_non_null (l : list (option Q)) : Q :=
  foldr (λ o acc, match o with Some v => (v + acc)%Q | None => acc end) 0%Q l.

Definition count_non_null (l : list (option Q)) : nat :=
  length (List.filter (λ o : option Q, match o with Some _ => true | None => false end) l).

Definition AVG (l : list (option Q)) : option Q :=
  match count_non_null l with
  | O => None
  | S _ as n => Some (sum_non_null l / inject_Z (Z.of_nat n))%Q
  end.

(** The grouping key: GROUP BY ST_SnapToGrid(location, 0.01), property_type.
    NULLs are grouped together. *)
Definition group_key : Type := option Geometry.t * option string.

Definition density_key (p : Property.t) : group_key :=
  (match Property.location p with
   | Some g => Some (ST_SnapToGrid g grid_size)
   | None => None
   end,
   Property.property_type p).

Definition key_eqb (k1 k2 : group_key) : bool :=
  match fst k1, fst k2 with
  | Some g1, Some g2 => Geometry.eqb g1 g2
  | None, None => true
  | _, _ => false
  end
  && bool_decide (snd k1 = snd k2).

(** The distinct keys, in the order of their first occurrence. *)
Fixpoint distinct_keys (ks : list group_key) : list group_key :=
  match ks with
  | [] => []
  | k :: ks' => k :: List.filter (λ k', negb (key_eqb k k')) (distinct_keys ks')
  end.

(** The members of the group of a key. *)
Definition group_members (rows : list Property.t) (k : group_key) : list Property.t :=
  List.filter (λ p, key_eqb k (density_key p)) rows.

Module GridAnalysis.
(** One row of the common table expression [grid_analysis]. *)
Record t : Type := mk {
  grid_cell : option Geometry.t;
  property_count : Z;
  avg_price : option Q;
  property_type : option string
}.
End GridAnalysis.

Module DensityRow.
(** One record of the result, keyed by the names of the select list. *)
Record t : Type := mk {
  property_type : option string;
  property_count : Z;
  average_price : option Q;
  center_lng : option Q;
  center_lat : option Q
}.
End DensityRow.

(** WHERE location IS NOT NULL AND listing_status = 'active'
    AND price IS NOT NULL *)
Definition density_where (p : Property.t) : result (option bool) :=
  Ok (sql_and
        (sql_and (is_not_null (Property.location p))
                 (sql_eq_text (Property.listing_status p) "active"))
        (is_not_null (Property.price p))).

(** The aggregates of one group. *)
Definition aggregate (rows : list Property.t) (k : group_key) : GridAnalysis.t :=
  let members := group_members rows k in
  {| GridAnalysis.grid_cell := fst k;
     GridAnalysis.property_count := Z.of_nat (length members);
     GridAnalysis.avg_price := AVG (Property.price <$> members);
     GridAnalysis.property_type := snd k |}.

(** HAVING COUNT( * ) >= 2 *)
Definition having (g : GridAnalysis.t) : bool :=
  (2 <=? GridAnalysis.property_count g)%Z.

Definition grid_analysis (db : database) : result (list GridAnalysis.t) :=
  rows ← from_table "properties" db;
  kept ← select_where density_where rows;
  Ok (List.filter having (aggregate kept <$> distinct_keys (density_key <$> kept))).

(** ORDER BY avg_price DESC: descending, NULLS FIRST. *)
Definition avg_price_ge (g1 g2 : GridAnalysis.t) : Prop :=
  nulls_last_leb (GridAnalysis.avg_price g2) (GridAnalysis.avg_price g1).

Definition density_select (g : GridAnalysis.t) : DensityRow.t :=
  {| DensityRow.property_type := GridAnalysis.property_type g;
     DensityRow.property_count := GridAnalysis.property_count g;
     DensityRow.average_price :=
       (λ a, inject_Z (ROUND a)) <$> GridAnalysis.avg_price g;
     DensityRow.center_lng := Geometry.x <$> GridAnalysis.grid_cell g;
     DensityRow.center_lat := Geometry.y <$> GridAnalysis.grid_cell g |}.

Definition density_query (db : database) : result (list DensityRow.t) :=
  groups ← grid_analysis db;
  Ok (density_select <$> take 10 (merge_sort avg_price_ge groups)).

(** Python [s or d] on a nullable string. *)
Definition or_str_opt (s : option string) (d : string) : string :=
  match s with
  | Some v => or_str v d
  | None => d
  end.

Definition or_int (n : Z) (d : Z) : Z := if (n =? 0)%Z then d else n.

Definition density_line (row : DensityRow.t) : line :=
  let prop_type := or_str_opt (DensityRow.property_type row) "Unknown" in
  let avg_price := or_num (DensityRow.average_price row) 0 in
  let count := or_int (DensityRow.property_count row) 0 in
  DensityLine prop_type (rint avg_price) count.

Definition analyze_market_density (db : database)
  : result (list DensityRow.t * list line) :=
  results ← density_query db;
  Ok (results, DensityHeader :: (density_line <$> results)).

(** ** The demo driver: [run_spatial_demo]

    Schema, then the proximity search around (37.7749, -122.4194) with a
    radius of 3 km, then the density analysis; the first exception ends the
    run. *)
Definition run_spatial_demo (ST_Distance : Geometry.t → Geometry.t → Q)
  (db : database) : result (database * list line) :=
  '(db1, out1) ← setup_postgis_tables db;
  '(_, out2) ← find_nearby_properties ST_Distance db1
                 (377749 # 10000) (-1224194 # 10000) 3;
  '(_, out3) ← analyze_market_density db1;
  Ok (db1, RunningDemo :: out1 ++ out2 ++ out3 ++ [DemoCompleted]).

(** ** An executable spatial engine and sample databases *)

(** The square root of a rational, rounded down to a multiple of 10^-9. *)
Definition sqrt_nano (s : Q) : Q :=
  Z.sqrt (Qfloor (s * inject_Z (10 ^ 18))) # 1000000000.

(** The Euclidean distance of two points, rounded down to a multiple of
    10^-9 degree: an executable [ST_Distance]. *)
Definition planar_distance (a b : Geometry.t) : Q :=
  let dx := (Geometry.x a - Geometry.x b)%Q in
  let dy := (Geometry.y a - Geometry.y b)%Q in
  sqrt_nano (dx * dx + dy * dy).

Definition listing (id : Z) (address : string) (price : option Q)
  (property_type status : option string) (location : option Geometry.t)
  : Property.t :=
  {| Property.id := id;
     Property.address := address;
     Property.price := price;
     Property.bedrooms := Some 2;
     Property.bathrooms := Some (3 # 2)%Q;
     Property.square_feet := Some 900;
     Property.property_type := property_type;
     Property.listing_status := status;
     Property.location := location;
     Property.created_at := Some 0 |}.

Definition database_of (rows : list Property.t) : database :=
  {| available_extensions := {[ "postgis" ]};
     extensions := {[ "postgis" ]};
     relations :=
       <[ "idx_properties_location" :=
            Index (mk_index "properties" "GIST" "location") ]>
         (<[ "properties" := Table rows ]> ∅) |}.

(** A server on which PostGIS can be installed and nothing exists yet. *)
Definition fresh_db : database :=
  {| available_extensions := {[ "postgis" ]};
     extensions := ∅;
     relations := ∅ |}.

(** Two condos of one grid cell, priced 100 and 101. *)
Definition two_condos : list Property.t :=
  [ listing 1 "1 Market St" (Some 100%Q) (Some "condo") (Some "active")
      (Some (Geometry.mk (-1224194 # 10000) (377749 # 10000)));
    listing 2 "2 Market St" (Some 101%Q) (Some "condo") (Some "active")
      (Some (Geometry.mk (-1224190 # 10000) (377745 # 10000))) ].

(** Listings around the demonstration coordinate of [run_spatial_demo]. *)
Definition sf_lat : Q := 377749 # 10000.
Definition sf_lng : Q := -1224194 # 10000.

Definition sf_listings : list Property.t :=
  [ listing 1 "1 Market St" (Some 100%Q) (Some "condo") (Some "active")
      (Some (Geometry.mk (-1224194 # 10000) (377749 # 10000)));
    listing 2 "500 Castro St" (Some 250%Q) (Some "house") (Some "active")
      (Some (Geometry.mk (-1224350 # 10000) (377609 # 10000)));
    listing 3 "9 Ocean Ave" (Some 300%Q) (Some "house") (Some "sold")
      (Some (Geometry.mk (-1224200 # 10000) (377750 # 10000)));
    listing 4 "77 Far Rd" (Some 50%Q) (Some "house") (Some "active")
      (Some (Geometry.mk (-1220000 # 10000) (380000 # 10000)));
    listing 5 "No Place" (Some 75%Q) None (Some "active") None;
    listing 6 "3 Market St" (Some 120%Q) (Some "condo") (Some "active")
      (Some (Geometry.mk (-1224190 # 10000) (377745 # 10000))) ].

(** What the demonstration call of [run_spatial_demo] returns and prints on
    [sf_listings]: [find_nearby_properties(sf_lat, sf_lng, radius_km=3)]. *)
Definition sf_results : list NearbyRow.t :=
  Eval vm_compute in
    match find_nearby_properties planar_distance (database_of sf_listings)
            sf_lat sf_lng 3 with
    | Ok (results, _) => results
    | Err _ => []
    end.

Definition sf_output : list line :=
  Eval vm_compute in
    match find_nearby_properties planar_distance (database_of sf_listings)
            sf_lat sf_lng 3 with
    | Ok (_, out) => out
    | Err _ => []
    end.

(** The one group of [two_condos], as [analyze_market_density] returns it. *)
Definition condo_group : DensityRow.t :=
  {| DensityRow.property_type := Some "condo";
     DensityRow.property_count := 2;
     DensityRow.average_price := Some 101%Q;
     DensityRow.center_lng := Some (-12242 # 100)%Q;
     DensityRow.center_lat := Some (3777 # 100)%Q |}.

(** Twenty-five active condos along the parallel of the demonstration
    coordinate, 0.0001 degree apart: more than LIMIT 20 lets through. *)
Definition condo_at (i : Z) : Property.t :=
  listing i "Row" (Some (inject_Z (100 + i))) (Some "condo") (Some "active")
    (Some (Geometry.mk (sf_lng + (i # 10000)) sf_lat)%Q).

Definition many_listings : list Property.t := condo_at <$> seqZ 1 25.

Definition many_results : list NearbyRow.t :=
  Eval vm_compute in
    match find_nearby_properties planar_distance (database_of many_listings)
            sf_lat sf_lng 3 with
    | Ok (results, _) => results
    | Err _ => []
    end.

Definition many_output : list line :=
  Eval vm_compute in
    match find_nearby_properties planar_distance (database_of many_listings)
            sf_lat sf_lng 3 with
    | Ok (_, out) => out
    | Err _ => []
    end.

(** ** Specification vocabulary for the density analysis *)

(** A listing that the density analysis counts: located, active, priced. *)
Definition eligible (p : Property.t) : bool :=
  match Property.location p, Property.listing_status p, Property.price p with
  | Some _, Some s, Some _ => bool_decide (s = "active")
  | _, _, _ => false
  end.

(** The grouping key that a returned record stands for. *)
Definition key_of_row (r : DensityRow.t) : group_key :=
  (match DensityRow.center_lng r, DensityRow.center_lat r with
   | Some cx, Some cy => Some (Geometry.mk cx cy)
   | _, _ => None
   end,
   DensityRow.property_type r).

(** The listings of the table that a returned record aggregates. *)
Definition underlying (rows : list Property.t) (r : DensityRow.t) : list Property.t :=
  List.filter (λ p, eligible p && key_eqb (key_of_row r) (density_key p)) rows.

(** [sf_listings] without the sold listing and the listing without a
    location. *)
Definition sf_eligible_listings : list Property.t := List.filter eligible sf_listings.

(** The key of a row of the common table expression. *)
Definition key_of_group (g : GridAnalysis.t) : group_key :=
  (GridAnalysis.grid_cell g, GridAnalysis.property_type g).

(** Two keys that GROUP BY keeps apart. *)
Definition key_distinct (k1 k2 : group_key) : Prop := key_eqb k1 k2 = false.

(** The eligible listings of the table that share cell and property type
    with a listing. *)
Definition group_of (rows : list Property.t) (p : Property.t) : list Property.t :=
  List.filter (λ q, eligible q && key_eqb (density_key p) (density_key q)) rows.

(** Twelve pairs of condos, pair i in its own cell 0.02 degree east of the
    previous one and priced 100 i and 100 i + 10: more groups than LIMIT 10
    lets through. *)
Definition pair_a (i : Z) : Property.t :=
  listing (2 * i) "Pair A" (Some (inject_Z (100 * i))) (Some "condo")
    (Some "active") (Some (Geometry.mk (sf_lng + (2 * i # 100)) sf_lat)%Q).

Definition pair_b (i : Z) : Property.t :=
  listing (2 * i + 1) "Pair B" (Some (inject_Z (100 * i + 10))) (Some "condo")
    (Some "active") (Some (Geometry.mk (sf_lng + (2 * i # 100)) sf_lat)%Q).

Definition condo_pair (i : Z) : list Property.t := [pair_a i; pair_b i].

Definition paired_listings : list Property.t := concat (condo_pair <$> seqZ 1 12).

Definition paired_results : list DensityRow.t :=
  Eval vm_compute in
    match analyze_market_density (database_of paired_listings) with
    | Ok (results, _) => results
    | Err _ => []
    end.

Definition paired_output : list line :=
  Eval vm_compute in
    match analyze_market_density (database_of paired_listings) with
    | Ok (_, out) => out
    | Err _ => []
    end.

(** What [find_nearby_properties(37.7749, -122.4194, radius_km=3)] is to
    return and print on [sf_listings], written out: the listing at the
    query point, then 3 Market St at 0.000565685 degree (62.97 m), then
    500 Castro St at 0.020960916 degree (2333.37 m); the sold listing, the
    listing at 77 Far Rd and the listing without a location are left out. *)
Definition sf_expected : list NearbyRow.t :=
  [ {| NearbyRow.id := 1;
       NearbyRow.address := "1 Market St";
       NearbyRow.price := Some 100%Q;
       NearbyRow.bedrooms := Some 2;
       NearbyRow.bathrooms := Some (3 # 2)%Q;
       NearbyRow.property_type := Some "condo";
       NearbyRow.square_feet := Some 900;
       NearbyRow.distance_meters := Some (0 # 1000000000)%Q |};
    {| NearbyRow.id := 6;
       NearbyRow.address := "3 Market St";
       NearbyRow.price := Some 120%Q;
       NearbyRow.bedrooms := Some 2;
       NearbyRow.bathrooms := Some (3 # 2)%Q;
       NearbyRow.property_type := Some "condo";
       NearbyRow.square_feet := Some 900;
       NearbyRow.distance_meters := Some (62972054200 # 1000000000)%Q |};
    {| NearbyRow.id := 2;
       NearbyRow.address := "500 Castro St";
       NearbyRow.price := Some 250%Q;
       NearbyRow.bedrooms := Some 2;
       NearbyRow.bathrooms := Some (3 # 2)%Q;
       NearbyRow.property_type := Some "house";
       NearbyRow.square_feet := Some 900;
       NearbyRow.distance_meters := Some (2333369169120 # 1000000000)%Q |} ].

Definition sf_expected_output : list line :=
  [ FoundHeader 3 3;
    NearbyLine "1 Market St" 100 0;
    NearbyLine "3 Market St" 120 63;
    NearbyLine "500 Castro St" 250 2333 ].

(** The first two records of [paired_results]. *)
Definition paired_top : DensityRow.t :=
  Eval vm_compute in density_select (aggregate paired_listings (density_key (pair_a 12))).

Definition paired_second : DensityRow.t :=
  Eval vm_compute in density_select (aggregate paired_listings (density_key (pair_a 11))).

(** The nearest record of [many_results]. *)
Definition many_nearest : NearbyRow.t :=
  Eval vm_compute in nearby_select planar_distance sf_lng sf_lat (condo_at 1).

(** The second listing of [sf_listings]. *)
Definition castro_st : Property.t :=
  listing 2 "500 Castro St" (Some 250%Q) (Some "house") (Some "active")
    (Some (Geometry.mk (-1224350 # 10000) (377609 # 10000))).

(** The sixth listing of [sf_listings]. *)
Definition third_market_st : Property.t :=
  listing 6 "3 Market St" (Some 120%Q) (Some "condo") (Some "active")
    (Some (Geometry.mk (-1224190 # 10000) (377745 # 10000))).

(** A table whose only listing has no location. *)
Definition unlocated_listings : list Property.t :=
  [ listing 5 "No Place" (Some 75%Q) None (Some "active") None ].

(** A server with PostGIS installed and the table filled, but no index. *)
Definition table_only_db : database :=
  {| available_extensions := ∅;
     extensions := {[ "postgis" ]};
     relations := <[ "properties" := Table sf_listings ]> ∅ |}.

Definition table_only_db_after : database :=
  {| available_extensions := ∅;
     extensions := {[ "postgis" ]};
     relations :=
       <[ "idx_properties_location" :=
            Index (mk_index "properties" "GIST" "location") ]>
         (<[ "properties" := Table sf_listings ]> ∅) |}.

(** The first listing of [two_condos]. *)
Definition pair_condo_1 : Property.t :=
  listing 1 "1 Market St" (Some 100%Q) (Some "condo") (Some "active")
    (Some (Geometry.mk (-1224194 # 10000) (377749 # 10000))).

(** The one row of [grid_analysis] on [two_condos]. *)
Definition condo_grid_row : GridAnalysis.t :=
  {| GridAnalysis.grid_cell := Some (Geometry.mk (-12242 # 100) (3777 # 100))%Q;
     GridAnalysis.property_count := 2;
     GridAnalysis.avg_price := Some (201 # 2)%Q;
     GridAnalysis.property_type := Some "condo" |}.

(** * Properties *)

(** ** The result monad *)

Lemma bind_Ok {A B : Type} (m : result A) (k : A → result B) (b : B) :
  m ≫= k = Ok b → ∃ a, m = Ok a ∧ k a = Ok b.
Proof.
  destruct m as [a|e]; simpl; intros H; [eauto | discriminate].
Qed.

Ltac inv_bind H :=
  let a := fresh "a" in
  let Ha := fresh "Ha" in
  let K := fresh "K" in
  apply bind_Ok in H; destruct H as (a & Ha & K); rename K into H.

(** ** Connection setup *)

Lemma load_dotenv_lookup (dotenv environ : gmap string string) (key : string) :
  load_dotenv dotenv environ !! key
  = match environ !! key with
    | Some v => Some v
    | None => dotenv !! key
    end.
Proof.
  unfold load_dotenv. rewrite lookup_union.
  by destruct (environ !! key), (dotenv !! key).
Qed.

(** C9: the connection is opened with the values of DB_HOST, DB_NAME,
    DB_USER and DB_PASSWORD, and a variable that is unset is replaced by
    'localhost', 'property_search', 'postgres' and 'password'
    respectively; results come back as records keyed by field name. *)
Theorem init_reads_environment_with_defaults (environ : gmap string string) :
  host (__init__ environ)
    = match environ !! "DB_HOST" with Some v => v | None => "localhost" end
  ∧ dbname (__init__ environ)
    = match environ !! "DB_NAME" with Some v => v | None => "property_search" end
  ∧ user (__init__ environ)
    = match environ !! "DB_USER" with Some v => v | None => "postgres" end
  ∧ password (__init__ environ)
    = match environ !! "DB_PASSWORD" with Some v => v | None => "password" end
  ∧ cursor_factory (__init__ environ) = RealDictCursor.
Proof.
  unfold __init__, getenv; simpl.
  repeat split; by destruct (environ !! _).
Qed.

(** ** Schema initialization *)

Lemma create_extension_post name db db1 :
  create_extension_if_not_exists name db = Ok db1 →
  name ∈ extensions db1 ∧ relations db1 = relations db.
Proof.
  unfold create_extension_if_not_exists.
  repeat case_decide; intros Heq; inversion Heq; subst; simpl; split;
    first [done | set_solver].
Qed.

Lemma create_extension_skip name db :
  name ∈ extensions db → create_extension_if_not_exists name db = Ok db.
Proof.
  intros H. unfold create_extension_if_not_exists. by rewrite decide_True.
Qed.

Lemma create_table_post name db db2 :
  create_table_if_not_exists name db = Ok db2 →
  is_Some (relations db2 !! name) ∧ extensions db2 = extensions db.
Proof.
  unfold create_table_if_not_exists.
  destruct (relations db !! name) eqn:E; intros H; inversion H; subst; simpl.
  - rewrite E. eauto.
  - rewrite lookup_insert_eq. eauto.
Qed.

Lemma create_table_skip name db :
  is_Some (relations db !! name) → create_table_if_not_exists name db = Ok db.
Proof.
  intros [r E]. unfold create_table_if_not_exists. by rewrite E.
Qed.

Lemma create_index_post name tbl method column db db3 :
  name ≠ tbl →
  create_index_if_not_exists name tbl method column db = Ok db3 →
  (∃ rows, relations db3 !! tbl = Some (Table rows))
  ∧ is_Some (relations db3 !! name)
  ∧ extensions db3 = extensions db.
Proof.
  intros Hne. unfold create_index_if_not_exists.
  destruct (relations db !! tbl) as [[rows|d|]|] eqn:Et; try discriminate.
  destruct (relations db !! name) eqn:En; intros H; inversion H; subst; simpl.
  - rewrite Et, En. eauto.
  - rewrite lookup_insert_ne, lookup_insert_eq, Et by done. eauto.
Qed.

Lemma create_index_skip name tbl method column db rows :
  relations db !! tbl = Some (Table rows) →
  is_Some (relations db !! name) →
  create_index_if_not_exists name tbl method column db = Ok db.
Proof.
  intros Et [r En]. unfold create_index_if_not_exists. by rewrite Et, En.
Qed.

(** What a successful call leaves behind. *)
Lemma setup_postgis_tables_post (db db' : database) (out : list line) :
  setup_postgis_tables db = Ok (db', out) →
  out = [TablesCreated]
  ∧ "postgis" ∈ extensions db'
  ∧ (∃ rows, relations db' !! "properties" = Some (Table rows))
  ∧ is_Some (relations db' !! "idx_properties_location").
Proof.
  unfold setup_postgis_tables. intros H.
  inv_bind H. inv_bind H. inv_bind H. inversion H; subst; clear H.
  apply create_extension_post in Ha as [Hext _].
  apply create_table_post in Ha0 as [_ Hext0].
  apply create_index_post in Ha1 as (Ht & Hi & Hext1); [|done].
  split_and!; try done. by rewrite Hext1, Hext0.
Qed.

(** C7: a second call of [setup_postgis_tables], from any state that a
    first call produced, raises no error and leaves the state as it is:
    every statement is skipped by its IF NOT EXISTS guard, so no table and
    no index is added. *)
Theorem setup_postgis_tables_idempotent (db db' : database) (out : list line) :
  setup_postgis_tables db = Ok (db', out) →
  setup_postgis_tables db' = Ok (db', [TablesCreated])
  ∧ "postgis" ∈ extensions db'
  ∧ (∃ rows, relations db' !! "properties" = Some (Table rows))
  ∧ is_Some (relations db' !! "idx_properties_location").
Proof.
  intros (_ & Hpg & [rows Ht] & Hi)%setup_postgis_tables_post.
  split_and!; eauto.
  unfold setup_postgis_tables.
  rewrite (create_extension_skip _ _ Hpg); simpl.
  rewrite create_table_skip by (rewrite Ht; eauto); simpl.
  by rewrite (create_index_skip _ _ _ _ _ rows) by done.
Qed.

(** ** WHERE, ORDER BY and LIMIT on lists *)

Lemma select_where_Ok {A : Type} (cond : A → result (option bool))
  (rows kept : list A) :
  select_where cond rows = Ok kept →
  kept = List.filter (holds cond) rows.
Proof.
  revert kept. induction rows as [|r rows IH]; simpl; intros kept H.
  - by inversion H.
  - inv_bind H. inv_bind H. inversion H; subst; clear H.
    unfold holds at 1. rewrite Ha, (IH _ Ha0).
    by destruct a as [[|]|].
Qed.

Lemma select_where_elem_of {A : Type} (cond : A → result (option bool))
  (rows kept : list A) (r : A) :
  select_where cond rows = Ok kept →
  r ∈ kept ↔ r ∈ rows ∧ cond r = Ok (Some true).
Proof.
  intros ->%select_where_Ok.
  rewrite !list_elem_of_In, filter_In. unfold holds.
  split; intros [Hin Hc]; split; try done.
  - by destruct (cond r) as [[[|]|]|].
  - by rewrite Hc.
Qed.

Lemma select_where_returns {A : Type} (cond : A → result (option bool))
  (rows : list A) :
  (∀ r, r ∈ rows → ∃ c, cond r = Ok c) →
  ∃ kept, select_where cond rows = Ok kept.
Proof.
  induction rows as [|r rows IH]; simpl; intros Hall; [eauto|].
  destruct (Hall r) as [c Hc]; [left|].
  destruct IH as [kept Hk]; [intros; apply Hall; by right|].
  rewrite Hc, Hk; simpl. eauto.
Qed.

Lemma nulls_last_leb_total (a b : option Q) :
  nulls_last_leb a b ∨ nulls_last_leb b a.
Proof.
  destruct a as [u|], b as [v|]; simpl; auto.
  rewrite !Is_true_true, !Qle_bool_iff.
  destruct (Qlt_le_dec u v) as [H%Qlt_le_weak|H]; auto.
Qed.

Lemma nulls_last_leb_trans (a b c : option Q) :
  nulls_last_leb a b → nulls_last_leb b c → nulls_last_leb a c.
Proof.
  destruct a as [u|], b as [v|], c as [w|]; simpl; try done.
  rewrite !Is_true_true, !Qle_bool_iff. apply Qle_trans.
Qed.

Lemma distance_le_total : Total distance_le.
Proof. intros r1 r2. apply nulls_last_leb_total. Qed.

Lemma distance_le_trans : Transitive distance_le.
Proof. intros r1 r2 r3. apply nulls_last_leb_trans. Qed.

Lemma avg_price_ge_total : Total avg_price_ge.
Proof. intros g1 g2. unfold avg_price_ge. apply or_comm, nulls_last_leb_total. Qed.

Lemma avg_price_ge_trans : Transitive avg_price_ge.
Proof.
  intros g1 g2 g3 H12 H23. unfold avg_price_ge in *.
  eapply nulls_last_leb_trans; eauto.
Qed.

(** ORDER BY followed by LIMIT: a prefix of a sorted rearrangement. *)
Lemma order_by_limit {A : Type} (R : relation A) `{∀ x y, Decision (R x y)}
  (HT : Total R) (HR : Transitive R) (n : nat) (l : list A) :
  StronglySorted R (take n (merge_sort R l))
  ∧ (length (take n (merge_sort R l)) ≤ n)%nat
  ∧ (∀ x, x ∈ take n (merge_sort R l) → x ∈ l)
  ∧ (∀ x y rest, take n (merge_sort R l) = x :: rest → y ∈ l → x = y ∨ R x y).
Proof.
  pose proof (StronglySorted_merge_sort R l) as Hs.
  pose proof (merge_sort_Permutation R l) as Hp.
  split_and!.
  - rewrite <- (take_drop n (merge_sort R l)) in Hs.
    by apply StronglySorted_app_1_l in Hs.
  - rewrite length_take. lia.
  - intros x Hx. rewrite <- Hp. by apply (subseteq_take n).
  - intros x y rest Ht Hy. rewrite <- Hp in Hy.
    destruct (merge_sort R l) as [|z s]; [by destruct n|].
    destruct n; [done|]. simpl in Ht. inversion Ht; subst.
    apply StronglySorted_cons in Hs as [Hall _].
    apply elem_of_cons in Hy as [->|Hy]; [by left|right].
    by eapply Forall_forall in Hall.
Qed.

Lemma StronglySorted_lookup {A : Type} (R : relation A) (l : list A)
  (i j : nat) (a b : A) :
  StronglySorted R l → (i < j)%nat → l !! i = Some a → l !! j = Some b → R a b.
Proof.
  intros Hs. revert i j. induction Hs as [|x l Hs IH Hall]; intros i j Hij Hi Hj.
  - done.
  - destruct j as [|j]; [lia|]. simpl in Hj.
    destruct i as [|i]; simpl in Hi.
    + inversion Hi; subst. eapply Forall_forall in Hall; [done|].
      by eapply list_elem_of_lookup_2.
    + eapply (IH i j); [lia|done..].
Qed.

(** An error on no row: when WHERE returns, the condition was evaluated on
    every row. *)
Lemma select_where_defined {A : Type} (cond : A → result (option bool))
  (rows kept : list A) (r : A) :
  select_where cond rows = Ok kept → r ∈ rows → ∃ c, cond r = Ok c.
Proof.
  revert kept. induction rows as [|r0 rows IH]; simpl; intros kept H Hr.
  - by inversion Hr.
  - inv_bind H. inv_bind H.
    apply elem_of_cons in Hr as [->|Hr]; eauto.
Qed.

(** ORDER BY followed by LIMIT, seen from a row of the input: it is in the
    prefix, or the prefix is full and holds only rows that sort before it. *)
Lemma order_by_limit_cases {A : Type} (R : relation A) `{∀ x y, Decision (R x y)}
  (HT : Total R) (HR : Transitive R) (n : nat) (l : list A) (y : A) :
  y ∈ l →
  y ∈ take n (merge_sort R l)
  ∨ (length (take n (merge_sort R l)) = n
     ∧ ∀ x, x ∈ take n (merge_sort R l) → R x y).
Proof.
  intros Hy.
  pose proof (StronglySorted_merge_sort R l) as Hs.
  rewrite <- (merge_sort_Permutation R l) in Hy.
  rewrite <- (take_drop n (merge_sort R l)) in Hs, Hy.
  apply elem_of_app in Hy as [Hy|Hy]; [by left|right]. split.
  - apply length_take_le.
    destruct (decide (n ≤ length (merge_sort R l))%nat) as [Hle|Hgt]; [done|].
    rewrite drop_ge in Hy by lia. by inversion Hy.
  - intros x Hx. by eapply StronglySorted_app_1_elem_of.
Qed.

(** ** Proximity search *)

Section ProximityProperties.

Variable ST_Distance : Geometry.t → Geometry.t → Q.

Lemma ST_DWithin_true (g1 g2 : Geometry.t) (tolerance : Q) :
  ST_DWithin ST_Distance g1 g2 tolerance = Ok true
  ↔ (0 <= tolerance)%Q ∧ (ST_Distance g1 g2 <= tolerance)%Q.
Proof.
  unfold ST_DWithin. rewrite <- !Qle_bool_iff.
  destruct (Qle_bool 0 tolerance); split.
  - intros H. by inversion H.
  - by intros [_ ->].
  - discriminate.
  - by intros [? _].
Qed.

Lemma nearby_where_true (p3 p4 p5 : Q) (p : Property.t) :
  nearby_where ST_Distance p3 p4 p5 p = Ok (Some true)
  ↔ ∃ g, Property.location p = Some g
       ∧ ST_DWithin ST_Distance g (Geometry.mk p3 p4) (p5 / km_per_degree)%Q = Ok true
       ∧ Property.listing_status p = Some "active".
Proof.
  unfold nearby_where, ST_GeomFromText_POINT, sql_eq_text.
  destruct (Property.location p) as [g|]; simpl.
  - destruct (ST_DWithin _ g _ _) as [[|]|e] eqn:E; simpl;
      destruct (Property.listing_status p) as [s|]; simpl;
      try case_bool_decide; subst; split;
      try discriminate; try (intros (g' & [= <-] & ? & ?); congruence).
    intros _. by exists g.
  - destruct (Property.listing_status p) as [s|]; simpl;
      try case_bool_decide; split;
      try discriminate; by intros (? & ? & _).
Qed.

Lemma find_nearby_properties_Ok (db : database) (lat lng radius_km : Q)
  (rows : list Property.t) (results : list NearbyRow.t) (out : list line) :
  from_table "properties" db = Ok rows →
  find_nearby_properties ST_Distance db lat lng radius_km = Ok (results, out) →
  ∃ kept,
    select_where (nearby_where ST_Distance lng lat radius_km) rows = Ok kept
    ∧ results
      = take 20 (merge_sort distance_le (nearby_select ST_Distance lng lat <$> kept))
    ∧ out = FoundHeader (length results) radius_km
              :: (nearby_line <$> take 5 results).
Proof.
  unfold find_nearby_properties, nearby_query. intros Hrows H.
  rewrite Hrows in H; simpl in H.
  inv_bind H. inversion H; subst; clear H.
  inv_bind Ha. inversion Ha; subst; clear Ha. eauto.
Qed.

(** A returned record is the select list evaluated on a row of the table
    that passed both conjuncts of the WHERE clause. *)
Lemma find_nearby_properties_row (db : database) (lat lng radius_km : Q)
  (rows : list Property.t) (results : list NearbyRow.t) (out : list line)
  (r : NearbyRow.t) :
  from_table "properties" db = Ok rows →
  find_nearby_properties ST_Distance db lat lng radius_km = Ok (results, out) →
  r ∈ results →
  ∃ p g, p ∈ rows
    ∧ r = nearby_select ST_Distance lng lat p
    ∧ Property.location p = Some g
    ∧ ST_DWithin ST_Distance g (Geometry.mk lng lat) (radius_km / km_per_degree)%Q
      = Ok true
    ∧ Property.listing_status p = Some "active".
Proof.
  intros Hrows H Hr.
  destruct (find_nearby_properties_Ok _ _ _ _ _ _ _ Hrows H) as (kept & Hk & -> & _).
  destruct (order_by_limit distance_le distance_le_total distance_le_trans 20
              (nearby_select ST_Distance lng lat <$> kept)) as (_ & _ & Hin & _).
  apply Hin, list_elem_of_fmap in Hr as (p & -> & Hp).
  apply (select_where_elem_of _ _ _ _ Hk) in Hp as [Hp Hc].
  apply nearby_where_true in Hc as (g & Hg & Hw & Hs).
  exists p, g. by split_and!.
Qed.

(** The call returns whenever the table exists and the radius is not
    negative. *)
Lemma find_nearby_properties_returns (db : database) (lat lng radius_km : Q)
  (rows : list Property.t) :
  from_table "properties" db = Ok rows →
  (0 <= radius_km)%Q →
  ∃ results out,
    find_nearby_properties ST_Distance db lat lng radius_km = Ok (results, out).
Proof.
  intros Hrows Hr. unfold find_nearby_properties, nearby_query.
  rewrite Hrows; simpl.
  destruct (select_where_returns (nearby_where ST_Distance lng lat radius_km) rows)
    as [kept ->]; [|simpl; eauto].
  intros p _. unfold nearby_where, ST_DWithin.
  assert (Ht : Qle_bool 0 (radius_km / km_per_degree) = true).
  { apply Qle_bool_iff. apply Qle_shift_div_l; [done|]. by rewrite Qmult_0_l. }
  rewrite Ht. destruct (Property.location p); simpl; eauto.
Qed.

Lemma distance_le_Some (r1 r2 : NearbyRow.t) (d1 d2 : Q) :
  NearbyRow.distance_meters r1 = Some d1 →
  NearbyRow.distance_meters r2 = Some d2 →
  distance_le r1 r2 → (d1 <= d2)%Q.
Proof.
  unfold distance_le. intros -> ->. simpl.
  by rewrite Is_true_true, Qle_bool_iff.
Qed.

Lemma NoDup_fmap_eq {A B : Type} (f : A → B) (l : list A) (a b : A) :
  NoDup (f <$> l) → a ∈ l → b ∈ l → f a = f b → a = b.
Proof.
  induction l as [|c l IH]; simpl; intros Hnd Ha Hb Hf; [by inversion Ha|].
  apply NoDup_cons in Hnd as [Hc Hnd].
  apply elem_of_cons in Ha as [->|Ha], Hb as [->|Hb]; auto.
  - exfalso. apply Hc. rewrite Hf. by apply list_elem_of_fmap_2.
  - exfalso. apply Hc. rewrite <- Hf. by apply list_elem_of_fmap_2.
Qed.

(** A listing that is located, active and within the converted radius comes
    back, unless LIMIT 20 is reached by rows that are at most as far. *)
Lemma find_nearby_properties_candidate (db : database) (lat lng radius_km : Q)
  (rows : list Property.t) (results : list NearbyRow.t) (out : list line)
  (p : Property.t) (g : Geometry.t) :
  from_table "properties" db = Ok rows →
  find_nearby_properties ST_Distance db lat lng radius_km = Ok (results, out) →
  p ∈ rows →
  Property.location p = Some g →
  Property.listing_status p = Some "active" →
  (ST_Distance g (Geometry.mk lng lat) <= radius_km / km_per_degree)%Q →
  nearby_select ST_Distance lng lat p ∈ results
  ∨ (length results = 20%nat
     ∧ ∀ r, r ∈ results →
         ∃ d, NearbyRow.distance_meters r = Some d
           ∧ (d <= ST_Distance g (Geometry.mk lng lat) * meters_per_degree)%Q).
Proof.
  intros Hrows H Hp Hg Hs Hd.
  destruct (find_nearby_properties_Ok _ _ _ _ _ _ _ Hrows H) as (kept & Hk & -> & _).
  assert (Hw : ST_DWithin ST_Distance g (Geometry.mk lng lat)
                 (radius_km / km_per_degree)%Q = Ok true).
  { destruct (select_where_defined _ _ _ p Hk Hp) as [c Hc].
    unfold nearby_where, ST_GeomFromText_POINT in Hc. rewrite Hg in Hc.
    unfold ST_DWithin in *.
    destruct (Qle_bool 0 (radius_km / km_per_degree)); [|discriminate].
    apply Qle_bool_iff in Hd. by rewrite Hd. }
  assert (Hin : p ∈ kept).
  { apply (select_where_elem_of _ _ _ _ Hk). split; [done|].
    apply nearby_where_true. by exists g. }
  destruct (order_by_limit_cases distance_le distance_le_total distance_le_trans 20
              (nearby_select ST_Distance lng lat <$> kept)
              (nearby_select ST_Distance lng lat p)) as [Hret|[Hlen Hnear]];
    [by apply list_elem_of_fmap_2 | by left | right].
  split; [done|]. intros r Hr. specialize (Hnear r Hr).
  unfold distance_le in Hnear. simpl in Hnear. rewrite Hg in Hnear.
  destruct (NearbyRow.distance_meters r) as [d|]; simpl in Hnear; [|done].
  exists d. split; [done|]. by apply Is_true_true, Qle_bool_iff in Hnear.
Qed.

(** X1: when at most 20 listings pass the filter, each of them is returned:
    every active listing with a location within the radius (in degrees,
    radius_km / 111.32) of the query point is in the result. *)
Lemma find_nearby_properties_complete (db : database) (lat lng radius_km : Q)
  (rows : list Property.t) (results : list NearbyRow.t) (out : list line)
  (p : Property.t) (g : Geometry.t) :
  from_table "properties" db = Ok rows →
  find_nearby_properties ST_Distance db lat lng radius_km = Ok (results, out) →
  (length (List.filter (holds (nearby_where ST_Distance lng lat radius_km)) rows)
   ≤ 20)%nat →
  p ∈ rows →
  Property.location p = Some g →
  Property.listing_status p = Some "active" →
  (ST_Distance g (Geometry.mk lng lat) <= radius_km / km_per_degree)%Q →
  (0 <= radius_km)%Q →
  nearby_select ST_Distance lng lat p ∈ results.
Proof.
  intros Hrows H Hlen Hp Hg Hs Hd Hr.
  destruct (find_nearby_properties_Ok _ _ _ _ _ _ _ Hrows H) as (kept & Hk & -> & _).
  assert (Hin : p ∈ kept).
  { apply (select_where_elem_of _ _ _ _ Hk). split; [done|].
    apply nearby_where_true. exists g. split_and!; try done.
    apply ST_DWithin_true. split; [|done].
    apply Qle_shift_div_l; [done|]. by rewrite Qmult_0_l. }
  apply select_where_Ok in Hk. rewrite <- Hk in Hlen.
  rewrite take_ge.
  - rewrite (merge_sort_Permutation distance_le). by apply list_elem_of_fmap_2.
  - by rewrite (merge_sort_Permutation distance_le), length_fmap.
Qed.

(** C4: no returned record comes from a listing whose listing_status
    differs from 'active'.  The select list has no listing_status, so the
    statement is about the row of the table that a record is computed
    from; under the primary key, that is the row with the record's id. *)
Theorem find_nearby_properties_only_active (db : database) (lat lng radius_km : Q)
  (rows : list Property.t) (results : list NearbyRow.t) (out : list line) :
  from_table "properties" db = Ok rows →
  find_nearby_properties ST_Distance db lat lng radius_km = Ok (results, out) →
  ∀ r, r ∈ results →
    (∃ p, p ∈ rows
        ∧ r = nearby_select ST_Distance lng lat p
        ∧ Property.listing_status p = Some "active")
    ∧ (NoDup (Property.id <$> rows) →
       ∀ p, p ∈ rows → Property.id p = NearbyRow.id r →
            Property.listing_status p = Some "active").
Proof.
  intros Hrows H r Hr.
  destruct (find_nearby_properties_row _ _ _ _ _ _ _ _ Hrows H Hr)
    as (p & g & Hp & -> & _ & _ & Hs).
  split; [by exists p|].
  intros Hnd q Hq Hid. simpl in Hid.
  by rewrite (NoDup_fmap_eq Property.id rows q p Hnd Hq Hp Hid).
Qed.

(** C3: at most 20 records are returned; each comes from a listing whose
    distance to the query point is at most the radius converted to
    degrees; the records are in ascending order of distance_meters. *)
Theorem find_nearby_properties_limit_radius_order (db : database)
  (lat lng radius_km : Q) (rows : list Property.t)
  (results : list NearbyRow.t) (out : list line) :
  from_table "properties" db = Ok rows →
  find_nearby_properties ST_Distance db lat lng radius_km = Ok (results, out) →
  (length results ≤ 20)%nat
  ∧ (∀ r, r ∈ results →
       ∃ p g, p ∈ rows
         ∧ r = nearby_select ST_Distance lng lat p
         ∧ Property.location p = Some g
         ∧ (ST_Distance g (Geometry.mk lng lat) <= radius_km / km_per_degree)%Q)
  ∧ (∀ i j ri rj, (i < j)%nat → results !! i = Some ri → results !! j = Some rj →
       ∃ di dj, NearbyRow.distance_meters ri = Some di
         ∧ NearbyRow.distance_meters rj = Some dj
         ∧ (di <= dj)%Q).
Proof.
  intros Hrows H.
  assert (Hrow := λ r, find_nearby_properties_row _ _ _ _ _ _ _ r Hrows H).
  destruct (find_nearby_properties_Ok _ _ _ _ _ _ _ Hrows H) as (kept & Hk & Hres & _).
  destruct (order_by_limit distance_le distance_le_total distance_le_trans 20
              (nearby_select ST_Distance lng lat <$> kept)) as (Hs & Hlen & _ & _).
  rewrite <- Hres in Hs, Hlen.
  split_and!; [done| |].
  - intros r Hr. destruct (Hrow r Hr) as (p & g & Hp & -> & Hg & Hw & _).
    apply ST_DWithin_true in Hw as [_ Hw]. by exists p, g.
  - intros i j ri rj Hij Hi Hj.
    destruct (Hrow ri) as (pi & gi & _ & Hri & Hgi & _);
      [by eapply list_elem_of_lookup_2|].
    destruct (Hrow rj) as (pj & gj & _ & Hrj & Hgj & _);
      [by eapply list_elem_of_lookup_2|].
    assert (Hle := StronglySorted_lookup _ _ _ _ _ _ Hs Hij Hi Hj).
    assert (Hdi : ∃ di, NearbyRow.distance_meters ri = Some di)
      by (subst ri; simpl; rewrite Hgi; eauto).
    assert (Hdj : ∃ dj, NearbyRow.distance_meters rj = Some dj)
      by (subst rj; simpl; rewrite Hgj; eauto).
    destruct Hdi as [di Hdi], Hdj as [dj Hdj].
    exists di, dj. split_and!; [done..|]. by eapply distance_le_Some.
Qed.

(** C5: distance_meters of a record is the distance in degrees between the
    listing and the query point times 111320, and the filter threshold is
    radius_km / 111.32 degrees, from both sides: a returned record comes
    from a listing at most that far, and a located, active listing at most
    that far is returned with that distance_meters, unless 20 records that
    are at most as far are returned.  The two constants are one factor, so
    distance_meters is at most radius_km * 1000. *)
Theorem find_nearby_properties_conversion_constants (db : database)
  (lat lng radius_km : Q) (rows : list Property.t)
  (results : list NearbyRow.t) (out : list line) :
  from_table "properties" db = Ok rows →
  find_nearby_properties ST_Distance db lat lng radius_km = Ok (results, out) →
  (∀ r, r ∈ results →
     ∃ p g, p ∈ rows
       ∧ NearbyRow.id r = Property.id p
       ∧ Property.location p = Some g
       ∧ NearbyRow.distance_meters r
         = Some (ST_Distance g (Geometry.mk lng lat) * inject_Z 111320)%Q
       ∧ ST_DWithin ST_Distance g (Geometry.mk lng lat) (radius_km / (11132 # 100))%Q
         = Ok true
       ∧ (ST_Distance g (Geometry.mk lng lat) <= radius_km / (11132 # 100))%Q
       ∧ (ST_Distance g (Geometry.mk lng lat) * inject_Z 111320
          <= radius_km * inject_Z 1000)%Q)
  ∧ (∀ p g, p ∈ rows →
       Property.location p = Some g →
       Property.listing_status p = Some "active" →
       (ST_Distance g (Geometry.mk lng lat) <= radius_km / (11132 # 100))%Q →
       (∃ r, r ∈ results
          ∧ NearbyRow.id r = Property.id p
          ∧ NearbyRow.distance_meters r
            = Some (ST_Distance g (Geometry.mk lng lat) * inject_Z 111320)%Q)
       ∨ (length results = 20%nat
          ∧ ∀ r, r ∈ results →
              ∃ d, NearbyRow.distance_meters r = Some d
                ∧ (d <= ST_Distance g (Geometry.mk lng lat) * inject_Z 111320)%Q)).
Proof.
  intros Hrows H. split.
  - intros r Hr.
    destruct (find_nearby_properties_row _ _ _ _ _ _ _ _ Hrows H Hr)
      as (p & g & Hp & -> & Hg & Hw & _).
    exists p, g. simpl. rewrite Hg.
    pose proof Hw as [_ Hle]%ST_DWithin_true.
    split_and!; try done.
    unfold km_per_degree in Hle.
    set (d := ST_Distance g _) in *.
    unfold Qdiv in Hle. change (/ (11132 # 100))%Q with (100 # 11132)%Q in Hle.
    unfold inject_Z. lra.
  - intros p g Hp Hg Hs Hd.
    destruct (find_nearby_properties_candidate _ _ _ _ _ _ _ p g Hrows H Hp Hg Hs Hd)
      as [Hret|Hfull]; [left|by right].
    exists (nearby_select ST_Distance lng lat p). split_and!; [done..|].
    simpl. by rewrite Hg.
Qed.

(** C10: the query point is POINT(lng lat): its X coordinate is the second
    argument (the longitude) and its Y coordinate the first (the
    latitude).  The same point is used to compute distance_meters and to
    filter: a record comes from a listing within the radius of that point
    and carries its distance to that point; a located, active listing
    within the radius of that point is returned, unless 20 records that are
    at most as far from it are; and the first record is at the least
    reported distance among all listings that pass the filter. *)
Theorem find_nearby_properties_point_lng_lat (db : database)
  (lat lng radius_km : Q) (rows : list Property.t)
  (results : list NearbyRow.t) (out : list line) :
  from_table "properties" db = Ok rows →
  find_nearby_properties ST_Distance db lat lng radius_km = Ok (results, out) →
  find_nearby_properties ST_Distance db lat lng radius_km
    = (res ← nearby_query ST_Distance lng lat lng lat radius_km db;
       Ok (res, FoundHeader (length res) radius_km :: (nearby_line <$> take 5 res)))
  ∧ Geometry.x (ST_GeomFromText_POINT lng lat 4326) = lng
  ∧ Geometry.y (ST_GeomFromText_POINT lng lat 4326) = lat
  ∧ (∀ r, r ∈ results →
       ∃ p g, p ∈ rows
         ∧ NearbyRow.id r = Property.id p
         ∧ Property.location p = Some g
         ∧ NearbyRow.distance_meters r
           = Some (ST_Distance g (Geometry.mk lng lat) * meters_per_degree)%Q
         ∧ ST_DWithin ST_Distance g (Geometry.mk lng lat)
             (radius_km / km_per_degree)%Q = Ok true)
  ∧ (∀ r0 rest p g,
       results = r0 :: rest →
       p ∈ rows →
       Property.location p = Some g →
       Property.listing_status p = Some "active" →
       ST_DWithin ST_Distance g (Geometry.mk lng lat)
         (radius_km / km_per_degree)%Q = Ok true →
       ∃ d0, NearbyRow.distance_meters r0 = Some d0
         ∧ (d0 <= ST_Distance g (Geometry.mk lng lat) * meters_per_degree)%Q)
  ∧ (∀ p g, p ∈ rows →
       Property.location p = Some g →
       Property.listing_status p = Some "active" →
       (ST_Distance g (Geometry.mk lng lat) <= radius_km / km_per_degree)%Q →
       (∃ r, r ∈ results
          ∧ NearbyRow.id r = Property.id p
          ∧ NearbyRow.distance_meters r
            = Some (ST_Distance g (Geometry.mk lng lat) * meters_per_degree)%Q)
       ∨ (length results = 20%nat
          ∧ ∀ r, r ∈ results →
              ∃ d, NearbyRow.distance_meters r = Some d
                ∧ (d <= ST_Distance g (Geometry.mk lng lat) * meters_per_degree)%Q)).
Proof.
  intros Hrows H.
  assert (Hrow := λ r, find_nearby_properties_row _ _ _ _ _ _ _ r Hrows H).
  split_and!; try done.
  - intros r Hr. destruct (Hrow r Hr) as (p & g & Hp & -> & Hg & Hw & _).
    exists p, g. simpl. by rewrite Hg.
  - intros r0 rest p g Hres Hp Hg Hs Hw.
    destruct (find_nearby_properties_Ok _ _ _ _ _ _ _ Hrows H)
      as (kept & Hk & Hres' & _).
    destruct (order_by_limit distance_le distance_le_total distance_le_trans 20
                (nearby_select ST_Distance lng lat <$> kept)) as (_ & _ & _ & Hmin).
    rewrite <- Hres', Hres in Hmin.
    assert (Hin : p ∈ kept).
    { apply (select_where_elem_of _ _ _ _ Hk). split; [done|].
      apply nearby_where_true. by exists g. }
    destruct (Hrow r0) as (p0 & g0 & _ & Hr0 & Hg0 & _); [rewrite Hres; left|].
    assert (Hd0 : NearbyRow.distance_meters r0
                  = Some (ST_Distance g0 (Geometry.mk lng lat) * meters_per_degree)%Q)
      by (subst r0; simpl; by rewrite Hg0).
    assert (Hdp : NearbyRow.distance_meters (nearby_select ST_Distance lng lat p)
                  = Some (ST_Distance g (Geometry.mk lng lat) * meters_per_degree)%Q)
      by (simpl; by rewrite Hg).
    eexists. split; [exact Hd0|].
    destruct (Hmin r0 (nearby_select ST_Distance lng lat p) rest eq_refl) as [Heq|Hle].
    + by apply list_elem_of_fmap_2.
    + rewrite Heq, Hdp in Hd0. apply (inj Some) in Hd0.
      rewrite <- Hd0. apply Qle_refl.
    + by eapply distance_le_Some.
  - intros p g Hp Hg Hs Hd.
    destruct (find_nearby_properties_candidate _ _ _ _ _ _ _ p g Hrows H Hp Hg Hs Hd)
      as [Hret|Hfull]; [left|by right].
    exists (nearby_select ST_Distance lng lat p). split_and!; [done..|].
    simpl. by rewrite Hg.
Qed.

End ProximityProperties.

(** ** Rounding *)

Lemma Qfloor_bounds (q : Q) :
  (inject_Z (Qfloor q) <= q)%Q ∧ (q < inject_Z (Qfloor q) + 1)%Q.
Proof.
  split; [apply Qfloor_le|].
  pose proof (Qlt_floor q) as H. by rewrite inject_Z_plus in H.
Qed.

Lemma rint_bounds (q : Q) :
  (inject_Z (rint q) - half <= q)%Q ∧ (q <= inject_Z (rint q) + half)%Q.
Proof.
  unfold rint, half. destruct (Qfloor_bounds q) as [Hlo Hhi].
  destruct (Qcompare_spec (q - inject_Z (Qfloor q)) (1 # 2)) as [H|H|H];
    [destruct (Z.even (Qfloor q))|..];
    rewrite ?inject_Z_plus; change (inject_Z 1) with 1%Q; split; lra.
Qed.

Lemma rint_inject_Z (n : Z) : rint (inject_Z n) = n.
Proof.
  unfold rint, half. rewrite Qfloor_Z.
  destruct (Qcompare_spec (inject_Z n - inject_Z n) (1 # 2)) as [H|H|H];
    [exfalso; lra | done | exfalso; lra].
Qed.

Lemma ROUND_bounds (q : Q) :
  (inject_Z (ROUND q) - half <= q)%Q ∧ (q <= inject_Z (ROUND q) + half)%Q.
Proof.
  unfold ROUND, half. destruct (Qle_bool 0 q).
  - destruct (Qfloor_bounds (q + (1 # 2))). split; lra.
  - destruct (Qfloor_bounds (- q + (1 # 2))).
    rewrite inject_Z_opp. split; lra.
Qed.

Lemma ROUND_le (a b : Q) : (a <= b)%Q → ROUND a ≤ ROUND b.
Proof.
  intros Hab. unfold ROUND, half.
  destruct (Qle_bool 0 a) eqn:Ea, (Qle_bool 0 b) eqn:Eb.
  - apply Qfloor_resp_le. lra.
  - apply Qle_bool_iff in Ea. apply not_true_iff_false in Eb.
    rewrite Qle_bool_iff in Eb. exfalso. apply Eb. lra.
  - apply Qle_bool_iff in Eb.
    assert (0 ≤ Qfloor (- a + (1 # 2))).
    { rewrite <- (Qfloor_Z 0). apply Qfloor_resp_le.
      apply not_true_iff_false in Ea. rewrite Qle_bool_iff in Ea.
      apply Qnot_le_lt in Ea. change (inject_Z 0) with 0%Q. lra. }
    assert (0 ≤ Qfloor (b + (1 # 2))).
    { rewrite <- (Qfloor_Z 0). apply Qfloor_resp_le.
      change (inject_Z 0) with 0%Q. lra. }
    lia.
  - assert (Qfloor (- b + (1 # 2)) ≤ Qfloor (- a + (1 # 2)))
      by (apply Qfloor_resp_le; lra).
    lia.
Qed.

Lemma snap_coordinate_grid (c : Q) :
  (snap_coordinate c grid_size == rint (c * inject_Z 100) # 100)%Q
  ∧ (snap_coordinate c grid_size - (1 # 200) <= c)%Q
  ∧ (c <= snap_coordinate c grid_size + (1 # 200))%Q.
Proof.
  unfold snap_coordinate, grid_size.
  change (Qle_bool (1 # 100) 0) with false. cbv iota.
  unfold Qdiv. change (/ (1 # 100))%Q with (inject_Z 100).
  destruct (rint_bounds (c * inject_Z 100)) as [Hlo Hhi].
  set (n := rint (c * inject_Z 100)) in *.
  assert (Hn : (inject_Z n * (1 # 100) == n # 100)%Q).
  { unfold Qeq, inject_Z; simpl. lia. }
  split_and!; [done|..];
    unfold half in *; change (inject_Z 100) with (100 # 1)%Q in *; lra.
Qed.

Lemma sqrt_nano_spec (s : Q) :
  (0 <= s)%Q →
  (0 <= sqrt_nano s)%Q
  ∧ (sqrt_nano s * sqrt_nano s <= s)%Q
  ∧ (s < (sqrt_nano s + (1 # 1000000000)) * (sqrt_nano s + (1 # 1000000000)))%Q.
Proof.
  intros Hs. unfold sqrt_nano.
  set (K := inject_Z (10 ^ 18)).
  set (n := Qfloor (s * K)).
  assert (HK : (0 < K)%Q) by reflexivity.
  assert (Hn : 0 ≤ n).
  { rewrite <- (Qfloor_Z 0). apply Qfloor_resp_le.
    change (inject_Z 0) with 0%Q.
    apply Qmult_le_0_compat; [done|]. by apply Qlt_le_weak. }
  pose proof (Z.sqrt_spec n Hn) as [Hlo Hhi].
  pose proof (Z.sqrt_nonneg n) as Hr.
  set (r := Z.sqrt n) in *.
  pose proof (Qfloor_le (s * K)) as Hfl. fold n in Hfl.
  pose proof (Qlt_floor (s * K)) as Hfh. fold n in Hfh.
  assert (E1 : ((r # 1000000000) * (r # 1000000000) == inject_Z (r * r) / K)%Q).
  { unfold Qeq, K, Qdiv, Qmult, Qinv, inject_Z; simpl. lia. }
  assert (E2 : (((r # 1000000000) + (1 # 1000000000))
                * ((r # 1000000000) + (1 # 1000000000))
                == inject_Z ((r + 1) * (r + 1)) / K)%Q).
  { unfold Qeq, K, Qdiv, Qmult, Qplus, Qinv, inject_Z; simpl. lia. }
  split_and!.
  - unfold Qle; simpl. lia.
  - rewrite E1. apply Qle_shift_div_r; [done|].
    eapply Qle_trans; [|exact Hfl]. rewrite <- Zle_Qle. exact Hlo.
  - rewrite E2. apply Qlt_shift_div_l; [done|].
    eapply Qlt_le_trans; [exact Hfh|]. rewrite <- Zle_Qle.
    unfold Z.succ in Hhi. lia.
Qed.

(** [planar_distance] is the Euclidean distance up to 10^-9 degree. *)
Lemma planar_distance_spec (a b : Geometry.t) :
  let d := planar_distance a b in
  let dx := (Geometry.x a - Geometry.x b)%Q in
  let dy := (Geometry.y a - Geometry.y b)%Q in
  (0 <= d)%Q
  ∧ (d * d <= dx * dx + dy * dy)%Q
  ∧ (dx * dx + dy * dy < (d + (1 # 1000000000)) * (d + (1 # 1000000000)))%Q.
Proof.
  simpl. apply sqrt_nano_spec.
  assert (Hsq : ∀ u : Q, (0 <= u * u)%Q) by (intros u; unfold Qle; simpl; nia).
  pose proof (Hsq (Geometry.x a - Geometry.x b)%Q).
  pose proof (Hsq (Geometry.y a - Geometry.y b)%Q).
  lra.
Qed.

(** ** Market density *)

Lemma holds_density_where (p : Property.t) : holds density_where p = eligible p.
Proof.
  unfold holds, density_where, eligible, is_not_null, sql_eq_text.
  destruct (Property.location p), (Property.listing_status p), (Property.price p);
    simpl; try case_bool_decide; done.
Qed.

Lemma filter_filter_andb {A : Type} (f g : A → bool) (l : list A) :
  List.filter g (List.filter f l) = List.filter (λ x, f x && g x) l.
Proof.
  induction l as [|x l IH]; simpl; [done|].
  destruct (f x); simpl; [destruct (g x)|]; by rewrite IH.
Qed.

Lemma distinct_keys_subseteq (ks : list group_key) (k : group_key) :
  k ∈ distinct_keys ks → k ∈ ks.
Proof.
  induction ks as [|k0 ks IH]; simpl; [done|].
  rewrite !elem_of_cons, list_elem_of_In, filter_In, <- list_elem_of_In.
  intros [->|[Hk _]]; auto.
Qed.

Lemma key_of_row_aggregate (kept : list Property.t) (k : group_key) :
  key_of_row (density_select (aggregate kept k)) = k.
Proof.
  unfold key_of_row; simpl. destruct k as [[[cx cy]|] t]; done.
Qed.

Lemma underlying_aggregate (rows : list Property.t) (k : group_key) :
  underlying rows (density_select (aggregate (List.filter eligible rows) k))
  = group_members (List.filter eligible rows) k.
Proof.
  unfold underlying, group_members.
  by rewrite key_of_row_aggregate, filter_filter_andb.
Qed.

Lemma count_non_null_priced (l : list Property.t) :
  (∀ p, p ∈ l → is_Some (Property.price p)) →
  count_non_null (Property.price <$> l) = length l.
Proof.
  induction l as [|p l IH]; intros Hall; [done|].
  destruct (Hall p) as [v Hv]; [left|].
  rewrite fmap_cons, Hv.
  change (count_non_null (Some v :: (Property.price <$> l)))
    with (S (count_non_null (Property.price <$> l))).
  rewrite IH; [done|]. intros q Hq. apply Hall. by right.
Qed.

Lemma eligible_spec (p : Property.t) :
  eligible p = true →
  is_Some (Property.location p)
  ∧ Property.listing_status p = Some "active"
  ∧ is_Some (Property.price p).
Proof.
  unfold eligible.
  destruct (Property.location p), (Property.listing_status p), (Property.price p);
    try discriminate.
  intros ->%bool_decide_eq_true. eauto.
Qed.

Lemma elem_of_underlying (rows : list Property.t) (r : DensityRow.t)
  (p : Property.t) :
  p ∈ underlying rows r
  ↔ p ∈ rows ∧ eligible p = true ∧ key_eqb (key_of_row r) (density_key p) = true.
Proof.
  unfold underlying.
  by rewrite !list_elem_of_In, filter_In, andb_true_iff.
Qed.

Lemma grid_analysis_Ok (db : database) (rows : list Property.t) :
  from_table "properties" db = Ok rows →
  grid_analysis db
  = Ok (List.filter having
          (aggregate (List.filter eligible rows)
             <$> distinct_keys (density_key <$> List.filter eligible rows))).
Proof.
  intros Hrows. unfold grid_analysis. rewrite Hrows; simpl.
  destruct (select_where_returns density_where rows) as [kept Hk];
    [intros; unfold density_where; eauto|].
  rewrite Hk; simpl. apply select_where_Ok in Hk.
  rewrite (filter_ext _ _ holds_density_where) in Hk. by subst kept.
Qed.

Lemma analyze_market_density_Ok (db : database) (rows : list Property.t)
  (results : list DensityRow.t) (out : list line) :
  from_table "properties" db = Ok rows →
  analyze_market_density db = Ok (results, out) →
  results
  = density_select
      <$> take 10
            (merge_sort avg_price_ge
               (List.filter having
                  (aggregate (List.filter eligible rows)
                     <$> distinct_keys (density_key <$> List.filter eligible rows))))
  ∧ out = DensityHeader :: (density_line <$> results).
Proof.
  intros Hrows. unfold analyze_market_density, density_query.
  rewrite (grid_analysis_Ok _ _ Hrows); simpl. intros H. by inversion H.
Qed.

(** The analysis returns whenever the table exists. *)
Lemma analyze_market_density_returns (db : database) (rows : list Property.t) :
  from_table "properties" db = Ok rows →
  ∃ results out, analyze_market_density db = Ok (results, out).
Proof.
  intros Hrows. unfold analyze_market_density, density_query.
  rewrite (grid_analysis_Ok _ _ Hrows); simpl. eauto.
Qed.

(** A group that the common table expression keeps. *)
Lemma grid_analysis_group (rows : list Property.t) (g : GridAnalysis.t) :
  g ∈ List.filter having
        (aggregate (List.filter eligible rows)
           <$> distinct_keys (density_key <$> List.filter eligible rows)) →
  ∃ k a,
    g = aggregate (List.filter eligible rows) k
    ∧ k ∈ density_key <$> List.filter eligible rows
    ∧ 2 ≤ Z.of_nat (length (group_members (List.filter eligible rows) k))
    ∧ GridAnalysis.avg_price g = Some a
    ∧ AVG (Property.price <$> group_members (List.filter eligible rows) k) = Some a.
Proof.
  rewrite list_elem_of_In, filter_In, <- list_elem_of_In.
  intros [(k & -> & Hk)%list_elem_of_fmap Hh].
  apply distinct_keys_subseteq in Hk.
  unfold having in Hh; simpl in Hh. apply Z.leb_le in Hh.
  assert (Hc : count_non_null
                 (Property.price <$> group_members (List.filter eligible rows) k)
               = length (group_members (List.filter eligible rows) k)).
  { apply count_non_null_priced. intros p.
    unfold group_members.
    rewrite !list_elem_of_In, !filter_In.
    intros [[_ He] _]. by apply eligible_spec in He as (_ & _ & ?). }
  assert (Ha : ∃ a, AVG (Property.price
                           <$> group_members (List.filter eligible rows) k) = Some a).
  { unfold AVG. rewrite Hc.
    destruct (length (group_members _ k)); [lia|eauto]. }
  destruct Ha as [a Ha]. exists k, a. by split_and!.
Qed.

(** A returned record is the select list evaluated on a group of at least
    two eligible listings of the table. *)
Lemma analyze_market_density_row (db : database) (rows : list Property.t)
  (results : list DensityRow.t) (out : list line) (r : DensityRow.t) :
  from_table "properties" db = Ok rows →
  analyze_market_density db = Ok (results, out) →
  r ∈ results →
  ∃ k a,
    r = density_select (aggregate (List.filter eligible rows) k)
    ∧ k ∈ density_key <$> List.filter eligible rows
    ∧ underlying rows r = group_members (List.filter eligible rows) k
    ∧ 2 ≤ Z.of_nat (length (underlying rows r))
    ∧ AVG (Property.price <$> underlying rows r) = Some a
    ∧ DensityRow.average_price r = Some (inject_Z (ROUND a)).
Proof.
  intros Hrows H Hr.
  destruct (analyze_market_density_Ok _ _ _ _ Hrows H) as [-> _].
  apply list_elem_of_fmap in Hr as (g & -> & Hg).
  apply (subseteq_take 10) in Hg.
  rewrite (merge_sort_Permutation avg_price_ge) in Hg.
  apply grid_analysis_group in Hg as (k & a & -> & Hk & Hn & Ha & Havg).
  exists k, a. rewrite underlying_aggregate.
  split_and!; try done.
  simpl. simpl in Ha. by rewrite Ha.
Qed.

(** A group that survives ORDER BY and LIMIT, seen through the record that
    is returned for it. *)
Lemma density_group_spec (rows : list Property.t) (g : GridAnalysis.t) :
  g ∈ take 10
        (merge_sort avg_price_ge
           (List.filter having
              (aggregate (List.filter eligible rows)
                 <$> distinct_keys (density_key <$> List.filter eligible rows)))) →
  ∃ a,
    GridAnalysis.avg_price g = Some a
    ∧ AVG (Property.price <$> underlying rows (density_select g)) = Some a
    ∧ DensityRow.average_price (density_select g) = Some (inject_Z (ROUND a))
    ∧ DensityRow.property_count (density_select g)
      = Z.of_nat (length (underlying rows (density_select g)))
    ∧ 2 ≤ DensityRow.property_count (density_select g).
Proof.
  intros Hg. apply (subseteq_take 10) in Hg.
  rewrite (merge_sort_Permutation avg_price_ge) in Hg.
  apply grid_analysis_group in Hg as (k & a & -> & Hk & Hn & Ha & Havg).
  exists a. rewrite underlying_aggregate.
  split_and!; try done.
  simpl. simpl in Ha. by rewrite Ha.
Qed.

Lemma or_num_rint_inject_Z (n : Z) : rint (or_num (Some (inject_Z n)) 0) = n.
Proof.
  unfold or_num. destruct (Qeq_bool (inject_Z n) 0) eqn:E.
  - apply Qeq_bool_iff in E. unfold Qeq in E; simpl in E.
    replace n with 0 by lia. done.
  - apply rint_inject_Z.
Qed.

(** C1, as the code has it: the average price of a returned record is the
    group's average rounded to the nearest whole unit (ties away from
    zero) by the query itself, and the printed line shows that returned
    value. *)
Theorem analyze_market_density_average_is_rounded (db : database)
  (rows : list Property.t) (results : list DensityRow.t) (out : list line) :
  from_table "properties" db = Ok rows →
  analyze_market_density db = Ok (results, out) →
  ∀ r, r ∈ results →
    ∃ a, AVG (Property.price <$> underlying rows r) = Some a
      ∧ DensityRow.average_price r = Some (inject_Z (ROUND a))
      ∧ (inject_Z (ROUND a) - (1 # 2) <= a)%Q
      ∧ (a <= inject_Z (ROUND a) + (1 # 2))%Q
      ∧ ∃ prop_type count, density_line r = DensityLine prop_type (ROUND a) count.
Proof.
  intros Hrows H r Hr.
  destruct (analyze_market_density_row _ _ _ _ _ Hrows H Hr)
    as (k & a & _ & _ & _ & _ & Ha & Hr').
  destruct (ROUND_bounds a) as [Hlo Hhi].
  exists a. split_and!; try done.
  unfold density_line. rewrite Hr', or_num_rint_inject_Z. eauto.
Qed.

(** C2: a returned record carries the coordinates of the grid point that
    every listing of its group is snapped to by [ST_SnapToGrid] with cell
    size 0.01: a multiple of 0.01 in each coordinate, at most 0.005 away
    from each listing of the group, and so the center of their cell. *)
Theorem analyze_market_density_cell_center (db : database)
  (rows : list Property.t) (results : list DensityRow.t) (out : list line) :
  from_table "properties" db = Ok rows →
  analyze_market_density db = Ok (results, out) →
  ∀ r, r ∈ results →
    ∃ cx cy,
      DensityRow.center_lng r = Some cx
      ∧ DensityRow.center_lat r = Some cy
      ∧ (∃ m n : Z, (cx == m # 100)%Q ∧ (cy == n # 100)%Q)
      ∧ underlying rows r ≠ []
      ∧ ∀ p, p ∈ underlying rows r →
          ∃ g, Property.location p = Some g
            ∧ (Geometry.x (ST_SnapToGrid g (1 # 100)) == cx)%Q
            ∧ (Geometry.y (ST_SnapToGrid g (1 # 100)) == cy)%Q
            ∧ (cx - (1 # 200) <= Geometry.x g)%Q
            ∧ (Geometry.x g <= cx + (1 # 200))%Q
            ∧ (cy - (1 # 200) <= Geometry.y g)%Q
            ∧ (Geometry.y g <= cy + (1 # 200))%Q
            ∧ Property.property_type p = DensityRow.property_type r.
Proof.
  intros Hrows H r Hr.
  destruct (analyze_market_density_row _ _ _ _ _ Hrows H Hr)
    as (k & a & -> & Hk & Hu & Hn & _ & _).
  apply list_elem_of_fmap in Hk as (p0 & -> & Hp0).
  apply list_elem_of_In, filter_In in Hp0 as [_ He0].
  apply eligible_spec in He0 as ([g0 Hg0] & _ & _).
  unfold density_key at 1 2. rewrite Hg0. simpl.
  exists (snap_coordinate (Geometry.x g0) grid_size),
         (snap_coordinate (Geometry.y g0) grid_size).
  split_and!; try done.
  - destruct (snap_coordinate_grid (Geometry.x g0)) as (Hx & _).
    destruct (snap_coordinate_grid (Geometry.y g0)) as (Hy & _). eauto.
  - intros Hnil. rewrite Hnil in Hn. simpl in Hn. lia.
  - intros p (_ & He & Hkey)%elem_of_underlying.
    rewrite key_of_row_aggregate in Hkey.
    apply eligible_spec in He as ([g Hg] & _ & _).
    unfold key_eqb, density_key in Hkey. rewrite Hg0, Hg in Hkey. simpl in Hkey.
    apply andb_true_iff in Hkey as [Hgeo Ht].
    apply bool_decide_eq_true in Ht.
    unfold Geometry.eqb in Hgeo. simpl in Hgeo.
    apply andb_true_iff in Hgeo as [Hx%Qeq_bool_iff Hy%Qeq_bool_iff].
    destruct (snap_coordinate_grid (Geometry.x g)) as (_ & Hxl & Hxh).
    destruct (snap_coordinate_grid (Geometry.y g)) as (_ & Hyl & Hyh).
    exists g. unfold ST_SnapToGrid; simpl.
    change (1 # 100)%Q with grid_size.
    split_and!; first [done | lra].
Qed.

(** C6: every returned group has at least 2 underlying listings, counted
    among the active listings with a price and a location; the groups are
    in non-increasing order of average price, before and after rounding;
    at most 10 groups are returned. *)
Theorem analyze_market_density_groups (db : database)
  (rows : list Property.t) (results : list DensityRow.t) (out : list line) :
  from_table "properties" db = Ok rows →
  analyze_market_density db = Ok (results, out) →
  (length results ≤ 10)%nat
  ∧ (∀ r, r ∈ results →
       DensityRow.property_count r = Z.of_nat (length (underlying rows r))
       ∧ 2 ≤ DensityRow.property_count r)
  ∧ (∀ i j ri rj, (i < j)%nat → results !! i = Some ri → results !! j = Some rj →
       ∃ ai aj,
         AVG (Property.price <$> underlying rows ri) = Some ai
         ∧ AVG (Property.price <$> underlying rows rj) = Some aj
         ∧ (aj <= ai)%Q
         ∧ DensityRow.average_price ri = Some (inject_Z (ROUND ai))
         ∧ DensityRow.average_price rj = Some (inject_Z (ROUND aj))
         ∧ (inject_Z (ROUND aj) <= inject_Z (ROUND ai))%Q).
Proof.
  intros Hrows H.
  destruct (analyze_market_density_Ok _ _ _ _ Hrows H) as [-> _].
  set (groups := List.filter having _).
  destruct (order_by_limit avg_price_ge avg_price_ge_total avg_price_ge_trans 10
              groups) as (Hs & Hlen & _ & _).
  split_and!.
  - by rewrite length_fmap.
  - intros r (g & -> & Hg)%list_elem_of_fmap.
    destruct (density_group_spec rows g Hg) as (a & _ & _ & _ & Hc & Hn). done.
  - intros i j ri rj Hij Hi Hj.
    apply list_lookup_fmap_Some in Hi as (gi & -> & Hi).
    apply list_lookup_fmap_Some in Hj as (gj & -> & Hj).
    destruct (density_group_spec rows gi) as (ai & Hai & Hui & Hri & _);
      [by eapply list_elem_of_lookup_2|].
    destruct (density_group_spec rows gj) as (aj & Haj & Huj & Hrj & _);
      [by eapply list_elem_of_lookup_2|].
    assert (Hge := StronglySorted_lookup _ _ _ _ _ _ Hs Hij Hi Hj).
    unfold avg_price_ge in Hge. rewrite Hai, Haj in Hge. simpl in Hge.
    apply Is_true_true, Qle_bool_iff in Hge.
    exists ai, aj. split_and!; try done.
    rewrite <- Zle_Qle. by apply ROUND_le.
Qed.

(** ** The empty table *)

(** C8: when the table [properties] has no rows, both queries return the
    empty list and raise no error, whatever the latitude, longitude and
    radius. *)
Theorem queries_on_empty_table (ST_Distance : Geometry.t → Geometry.t → Q)
  (db : database) (lat lng radius_km : Q) :
  relations db !! "properties" = Some (Table []) →
  find_nearby_properties ST_Distance db lat lng radius_km
    = Ok ([], [FoundHeader 0 radius_km])
  ∧ analyze_market_density db = Ok ([], [DensityHeader]).
Proof.
  intros Hrel.
  unfold find_nearby_properties, nearby_query, analyze_market_density,
    density_query, grid_analysis, from_table.
  by rewrite Hrel.
Qed.

(** ** The demo driver *)

(** Once the schema statements succeed on a state of the model, the whole
    demonstration runs to its end. *)
Lemma run_spatial_demo_returns (ST_Distance : Geometry.t → Geometry.t → Q)
  (db db1 : database) (out1 : list line) :
  setup_postgis_tables db = Ok (db1, out1) →
  ∃ out, run_spatial_demo ST_Distance db = Ok (db1, out).
Proof.
  intros Hsetup. unfold run_spatial_demo. rewrite Hsetup; simpl.
  apply setup_postgis_tables_post in Hsetup as (_ & _ & [rows Ht] & _).
  assert (Hrows : from_table "properties" db1 = Ok rows)
    by (unfold from_table; by rewrite Ht).
  destruct (find_nearby_properties_returns ST_Distance db1
              (377749 # 10000) (-1224194 # 10000) 3 rows Hrows)
    as (res2 & out2 & ->); [done|].
  destruct (analyze_market_density_returns db1 rows Hrows) as (res3 & out3 & ->).
  simpl. eauto.
Qed.

Example run_spatial_demo_fresh_db :
  run_spatial_demo planar_distance fresh_db
  = Ok (database_of [],
        [RunningDemo; TablesCreated; FoundHeader 0 3; DensityHeader; DemoCompleted]).
Proof. vm_compute; reflexivity. Qed.

(** Two listings at the same coordinates and of the same type, priced 100
    and 200: one group with average_price 150 and property_count 2. *)
Example analyze_market_density_100_200 :
  analyze_market_density
    (database_of
       [ listing 1 "1 Main St" (Some 100%Q) (Some "house") (Some "active")
           (Some (Geometry.mk (-1224194 # 10000) (377749 # 10000)));
         listing 2 "2 Main St" (Some 200%Q) (Some "house") (Some "active")
           (Some (Geometry.mk (-1224194 # 10000) (377749 # 10000))) ])
  = Ok ([ {| DensityRow.property_type := Some "house";
             DensityRow.property_count := 2;
             DensityRow.average_price := Some 150%Q;
             DensityRow.center_lng := Some (-12242 # 100)%Q;
             DensityRow.center_lat := Some (3777 # 100)%Q |} ],
        [DensityHeader; DensityLine "house" 150 2]).
Proof. vm_compute; reflexivity. Qed.

(** ** The claims on concrete databases *)

(** C1, as the specification states it, fails: for two condos of one cell
    priced 100 and 101 the group's average is 100.5, and the returned record
    carries 101, the average already rounded by the query. *)
Lemma analyze_market_density_returns_rounded_average :
  analyze_market_density (database_of two_condos)
    = Ok ([condo_group], [DensityHeader; DensityLine "condo" 101 2])
  ∧ AVG (Property.price <$> underlying two_condos condo_group) = Some (201 # 2)%Q
  ∧ DensityRow.average_price condo_group = Some 101%Q
  ∧ ¬ (101 == 201 # 2)%Q.
Proof.
  split_and!; [vm_compute; reflexivity..|].
  intros H. vm_compute in H. discriminate.
Qed.

Lemma analyze_market_density_average_is_rounded_witness :
  from_table "properties" (database_of two_condos) = Ok two_condos
  ∧ analyze_market_density (database_of two_condos)
    = Ok ([condo_group], [DensityHeader; DensityLine "condo" 101 2])
  ∧ condo_group ∈ [condo_group]
  ∧ ∃ a, AVG (Property.price <$> underlying two_condos condo_group) = Some a
      ∧ DensityRow.average_price condo_group = Some (inject_Z (ROUND a))
      ∧ (inject_Z (ROUND a) - (1 # 2) <= a)%Q
      ∧ (a <= inject_Z (ROUND a) + (1 # 2))%Q
      ∧ ∃ prop_type count,
          density_line condo_group = DensityLine prop_type (ROUND a) count.
Proof.
  assert (Hrows : from_table "properties" (database_of two_condos) = Ok two_condos)
    by (vm_compute; reflexivity).
  assert (H : analyze_market_density (database_of two_condos)
              = Ok ([condo_group], [DensityHeader; DensityLine "condo" 101 2]))
    by (vm_compute; reflexivity).
  assert (Hr : condo_group ∈ [condo_group]) by left.
  split_and!; [done..|].
  exact (analyze_market_density_average_is_rounded
           (database_of two_condos) two_condos [condo_group]
           [DensityHeader; DensityLine "condo" 101 2] Hrows H condo_group Hr).
Defined.

Lemma analyze_market_density_cell_center_witness :
  from_table "properties" (database_of two_condos) = Ok two_condos
  ∧ analyze_market_density (database_of two_condos)
    = Ok ([condo_group], [DensityHeader; DensityLine "condo" 101 2])
  ∧ ∀ r, r ∈ [condo_group] →
      ∃ cx cy,
        DensityRow.center_lng r = Some cx
        ∧ DensityRow.center_lat r = Some cy
        ∧ (∃ m n : Z, (cx == m # 100)%Q ∧ (cy == n # 100)%Q)
        ∧ underlying two_condos r ≠ []
        ∧ ∀ p, p ∈ underlying two_condos r →
            ∃ g, Property.location p = Some g
              ∧ (Geometry.x (ST_SnapToGrid g (1 # 100)) == cx)%Q
              ∧ (Geometry.y (ST_SnapToGrid g (1 # 100)) == cy)%Q
              ∧ (cx - (1 # 200) <= Geometry.x g)%Q
              ∧ (Geometry.x g <= cx + (1 # 200))%Q
              ∧ (cy - (1 # 200) <= Geometry.y g)%Q
              ∧ (Geometry.y g <= cy + (1 # 200))%Q
              ∧ Property.property_type p = DensityRow.property_type r.
Proof.
  assert (Hrows : from_table "properties" (database_of two_condos) = Ok two_condos)
    by (vm_compute; reflexivity).
  assert (H : analyze_market_density (database_of two_condos)
              = Ok ([condo_group], [DensityHeader; DensityLine "condo" 101 2]))
    by (vm_compute; reflexivity).
  split_and!; [done..|].
  exact (analyze_market_density_cell_center
           (database_of two_condos) two_condos [condo_group]
           [DensityHeader; DensityLine "condo" 101 2] Hrows H).
Defined.

Lemma analyze_market_density_groups_witness :
  from_table "properties" (database_of two_condos) = Ok two_condos
  ∧ analyze_market_density (database_of two_condos)
    = Ok ([condo_group], [DensityHeader; DensityLine "condo" 101 2])
  ∧ (length [condo_group] ≤ 10)%nat
  ∧ DensityRow.property_count condo_group
    = Z.of_nat (length (underlying two_condos condo_group))
  ∧ 2 ≤ DensityRow.property_count condo_group.
Proof.
  assert (Hrows : from_table "properties" (database_of two_condos) = Ok two_condos)
    by (vm_compute; reflexivity).
  assert (H : analyze_market_density (database_of two_condos)
              = Ok ([condo_group], [DensityHeader; DensityLine "condo" 101 2]))
    by (vm_compute; reflexivity).
  destruct (analyze_market_density_groups
              (database_of two_condos) two_condos [condo_group]
              [DensityHeader; DensityLine "condo" 101 2] Hrows H)
    as (Hlen & Hcount & _).
  destruct (Hcount condo_group) as [Hc Hn]; [left|].
  by split_and!.
Defined.

Lemma setup_postgis_tables_idempotent_witness :
  setup_postgis_tables fresh_db = Ok (database_of [], [TablesCreated])
  ∧ setup_postgis_tables (database_of []) = Ok (database_of [], [TablesCreated]).
Proof.
  assert (H : setup_postgis_tables fresh_db = Ok (database_of [], [TablesCreated]))
    by (vm_compute; reflexivity).
  split; [done|].
  exact (proj1 (setup_postgis_tables_idempotent fresh_db (database_of [])
                  [TablesCreated] H)).
Defined.

Lemma queries_on_empty_table_witness :
  relations (database_of []) !! "properties" = Some (Table [])
  ∧ find_nearby_properties planar_distance (database_of []) sf_lat sf_lng 3
    = Ok ([], [FoundHeader 0 3])
  ∧ analyze_market_density (database_of []) = Ok ([], [DensityHeader]).
Proof.
  assert (H : relations (database_of []) !! "properties" = Some (Table []))
    by (vm_compute; reflexivity).
  split; [done|].
  exact (queries_on_empty_table planar_distance (database_of [])
           sf_lat sf_lng 3 H).
Defined.

Lemma find_nearby_properties_only_active_witness :
  from_table "properties" (database_of sf_listings) = Ok sf_listings
  ∧ find_nearby_properties planar_distance (database_of sf_listings) sf_lat sf_lng 3
    = Ok (sf_results, sf_output)
  ∧ ∀ r, r ∈ sf_results →
      (∃ p, p ∈ sf_listings
          ∧ r = nearby_select planar_distance sf_lng sf_lat p
          ∧ Property.listing_status p = Some "active")
      ∧ (NoDup (Property.id <$> sf_listings) →
         ∀ p, p ∈ sf_listings → Property.id p = NearbyRow.id r →
              Property.listing_status p = Some "active").
Proof.
  assert (Hrows : from_table "properties" (database_of sf_listings) = Ok sf_listings)
    by (vm_compute; reflexivity).
  assert (H : find_nearby_properties planar_distance (database_of sf_listings)
                sf_lat sf_lng 3 = Ok (sf_results, sf_output))
    by (vm_compute; reflexivity).
  split_and!; [done..|].
  exact (find_nearby_properties_only_active planar_distance
           (database_of sf_listings) sf_lat sf_lng 3 sf_listings
           sf_results sf_output Hrows H).
Defined.

Lemma find_nearby_properties_limit_radius_order_witness :
  from_table "properties" (database_of sf_listings) = Ok sf_listings
  ∧ find_nearby_properties planar_distance (database_of sf_listings) sf_lat sf_lng 3
    = Ok (sf_results, sf_output)
  ∧ (length sf_results ≤ 20)%nat
  ∧ (∀ r, r ∈ sf_results →
       ∃ p g, p ∈ sf_listings
         ∧ r = nearby_select planar_distance sf_lng sf_lat p
         ∧ Property.location p = Some g
         ∧ (planar_distance g (Geometry.mk sf_lng sf_lat) <= 3 / km_per_degree)%Q)
  ∧ (∀ i j ri rj, (i < j)%nat →
       sf_results !! i = Some ri → sf_results !! j = Some rj →
       ∃ di dj, NearbyRow.distance_meters ri = Some di
         ∧ NearbyRow.distance_meters rj = Some dj
         ∧ (di <= dj)%Q).
Proof.
  assert (Hrows : from_table "properties" (database_of sf_listings) = Ok sf_listings)
    by (vm_compute; reflexivity).
  assert (H : find_nearby_properties planar_distance (database_of sf_listings)
                sf_lat sf_lng 3 = Ok (sf_results, sf_output))
    by (vm_compute; reflexivity).
  split; [done|]. split; [done|].
  exact (find_nearby_properties_limit_radius_order planar_distance
           (database_of sf_listings) sf_lat sf_lng 3 sf_listings
           sf_results sf_output Hrows H).
Defined.

Lemma find_nearby_properties_conversion_constants_witness :
  from_table "properties" (database_of sf_listings) = Ok sf_listings
  ∧ find_nearby_properties planar_distance (database_of sf_listings) sf_lat sf_lng 3
    = Ok (sf_expected, sf_expected_output)
  ∧ (planar_distance (Geometry.mk (-1224190 # 10000) (377745 # 10000))
       (Geometry.mk sf_lng sf_lat) <= 3 / (11132 # 100))%Q
  ∧ (∃ r, r ∈ sf_expected
       ∧ NearbyRow.id r = 6
       ∧ NearbyRow.distance_meters r = Some (62972054200 # 1000000000)%Q)
  ∧ (∀ r, r ∈ sf_expected →
       ∃ p g, p ∈ sf_listings
         ∧ NearbyRow.id r = Property.id p
         ∧ Property.location p = Some g
         ∧ NearbyRow.distance_meters r
           = Some (planar_distance g (Geometry.mk sf_lng sf_lat) * inject_Z 111320)%Q
         ∧ ST_DWithin planar_distance g (Geometry.mk sf_lng sf_lat)
             (3 / (11132 # 100))%Q = Ok true
         ∧ (planar_distance g (Geometry.mk sf_lng sf_lat) <= 3 / (11132 # 100))%Q
         ∧ (planar_distance g (Geometry.mk sf_lng sf_lat) * inject_Z 111320
            <= 3 * inject_Z 1000)%Q).
Proof.
  assert (Hrows : from_table "properties" (database_of sf_listings) = Ok sf_listings)
    by (vm_compute; reflexivity).
  assert (H : find_nearby_properties planar_distance (database_of sf_listings)
                sf_lat sf_lng 3 = Ok (sf_expected, sf_expected_output))
    by (vm_compute; reflexivity).
  assert (Hp : third_market_st ∈ sf_listings)
    by (apply list_elem_of_In; simpl; auto 10).
  assert (Hd : (planar_distance (Geometry.mk (-1224190 # 10000) (377745 # 10000))
                  (Geometry.mk sf_lng sf_lat) <= 3 / (11132 # 100))%Q)
    by (by vm_compute).
  destruct (find_nearby_properties_conversion_constants planar_distance
              (database_of sf_listings) sf_lat sf_lng 3 sf_listings
              sf_expected sf_expected_output Hrows H) as [Hall Hcand].
  split; [done|]. split; [done|]. split; [done|]. split; [|done].
  destruct (Hcand third_market_st
              (Geometry.mk (-1224190 # 10000) (377745 # 10000))
              Hp eq_refl eq_refl Hd) as [(r & Hr & Hid & Hdist)|[Hlen _]].
  - exists r. split_and!; [done..|]. rewrite Hdist. vm_compute. reflexivity.
  - discriminate Hlen.
Defined.

Lemma find_nearby_properties_point_lng_lat_witness :
  from_table "properties" (database_of sf_listings) = Ok sf_listings
  ∧ find_nearby_properties planar_distance (database_of sf_listings) sf_lat sf_lng 3
    = Ok (sf_expected, sf_expected_output)
  ∧ Geometry.x (ST_GeomFromText_POINT sf_lng sf_lat 4326) = sf_lng
  ∧ Geometry.y (ST_GeomFromText_POINT sf_lng sf_lat 4326) = sf_lat
  ∧ (∃ r, r ∈ sf_expected
       ∧ NearbyRow.id r = 2
       ∧ NearbyRow.distance_meters r = Some (2333369169120 # 1000000000)%Q)
  ∧ (∀ r, r ∈ sf_expected →
       ∃ p g, p ∈ sf_listings
         ∧ NearbyRow.id r = Property.id p
         ∧ Property.location p = Some g
         ∧ NearbyRow.distance_meters r
           = Some (planar_distance g (Geometry.mk sf_lng sf_lat) * meters_per_degree)%Q
         ∧ ST_DWithin planar_distance g (Geometry.mk sf_lng sf_lat)
             (3 / km_per_degree)%Q = Ok true).
Proof.
  assert (Hrows : from_table "properties" (database_of sf_listings) = Ok sf_listings)
    by (vm_compute; reflexivity).
  assert (H : find_nearby_properties planar_distance (database_of sf_listings)
                sf_lat sf_lng 3 = Ok (sf_expected, sf_expected_output))
    by (vm_compute; reflexivity).
  assert (Hp : castro_st ∈ sf_listings)
    by (apply list_elem_of_In; simpl; auto 10).
  assert (Hd : (planar_distance (Geometry.mk (-1224350 # 10000) (377609 # 10000))
                  (Geometry.mk sf_lng sf_lat) <= 3 / km_per_degree)%Q)
    by (by vm_compute).
  destruct (find_nearby_properties_point_lng_lat planar_distance
              (database_of sf_listings) sf_lat sf_lng 3 sf_listings
              sf_expected sf_expected_output Hrows H)
    as (_ & Hx & Hy & Hrow & _ & Hcand).
  split; [done|]. split; [done|]. split; [done|]. split; [done|].
  split; [|done].
  destruct (Hcand castro_st
              (Geometry.mk (-1224350 # 10000) (377609 # 10000))
              Hp eq_refl eq_refl Hd) as [(r & Hr & Hid & Hdist)|[Hlen _]].
  - exists r. split_and!; [done..|]. rewrite Hdist. vm_compute. reflexivity.
  - discriminate Hlen.
Defined.

(** With the two arguments exchanged, the query point is POINT(37.7749
    -122.4194), far from every listing, and nothing is returned. *)
Example find_nearby_properties_arguments_exchanged :
  find_nearby_properties planar_distance (database_of sf_listings) sf_lng sf_lat 3
  = Ok ([], [FoundHeader 0 3]).
Proof. vm_compute; reflexivity. Qed.

(** * Further properties *)

(** ** ORDER BY and LIMIT: what is cut off *)

Lemma order_by_limit_rest {A : Type} (R : relation A) `{∀ x y, Decision (R x y)}
  (HT : Total R) (HR : Transitive R) (n : nat) (l : list A) (x y : A) :
  x ∈ take n (merge_sort R l) →
  y ∈ l →
  y ∉ take n (merge_sort R l) →
  R x y.
Proof.
  intros Hx Hy Hny.
  pose proof (StronglySorted_merge_sort R l) as Hs.
  rewrite <- (merge_sort_Permutation R l) in Hy.
  rewrite <- (take_drop n (merge_sort R l)) in Hs, Hy.
  apply elem_of_app in Hy as [Hy|Hy]; [done|].
  by eapply StronglySorted_app_1_elem_of.
Qed.

Lemma NoDup_fmap_filter {A B : Type} (f : A → B) (P : A → bool) (l : list A) :
  NoDup (f <$> l) → NoDup (f <$> List.filter P l).
Proof.
  induction l as [|a l IH]; simpl; [done|].
  rewrite NoDup_cons. intros [Ha Hl].
  destruct (P a); [|by apply IH].
  rewrite fmap_cons, NoDup_cons. split; [|by apply IH].
  intros (b & Hb & Hin)%list_elem_of_fmap. apply Ha. rewrite Hb.
  apply list_elem_of_fmap_2.
  apply list_elem_of_In, filter_In in Hin as [Hin _]. by apply list_elem_of_In.
Qed.

Lemma or_num_0 (x : option Q) :
  (or_num x 0 == match x with Some v => v | None => 0 end)%Q.
Proof.
  destruct x as [v|]; simpl; [|done].
  destruct (Qeq_bool v 0) eqn:E; [|done].
  apply Qeq_bool_iff in E. by symmetry.
Qed.

Lemma or_num_Some (v : Q) : (or_num (Some v) 0 == v)%Q.
Proof. apply (or_num_0 (Some v)). Qed.

Section ProximityFurther.

Variable ST_Distance : Geometry.t → Geometry.t → Q.

(** X2: when LIMIT 20 cuts the result, the rows it keeps are the nearest:
    a listing that passes the filter and whose id is not among the
    returned ones is at least as far as every returned row. *)
Theorem find_nearby_properties_keeps_nearest (db : database)
  (lat lng radius_km : Q) (rows : list Property.t)
  (results : list NearbyRow.t) (out : list line)
  (r : NearbyRow.t) (p : Property.t) (g : Geometry.t) :
  from_table "properties" db = Ok rows →
  find_nearby_properties ST_Distance db lat lng radius_km = Ok (results, out) →
  r ∈ results →
  p ∈ rows →
  Property.location p = Some g →
  Property.listing_status p = Some "active" →
  ST_DWithin ST_Distance g (Geometry.mk lng lat) (radius_km / km_per_degree)%Q
    = Ok true →
  Property.id p ∉ (NearbyRow.id <$> results) →
  ∃ d, NearbyRow.distance_meters r = Some d
    ∧ (d <= ST_Distance g (Geometry.mk lng lat) * meters_per_degree)%Q.
Proof.
  intros Hrows H Hr Hp Hg Hs Hw Hid.
  destruct (find_nearby_properties_row ST_Distance _ _ _ _ _ _ _ r Hrows H Hr)
    as (p0 & g0 & _ & Hr0 & Hg0 & _).
  destruct (find_nearby_properties_Ok ST_Distance _ _ _ _ _ _ _ Hrows H)
    as (kept & Hk & Hres & _).
  assert (Hin : p ∈ kept).
  { apply (select_where_elem_of _ _ _ _ Hk). split; [done|].
    apply nearby_where_true. by exists g. }
  assert (Hd0 : NearbyRow.distance_meters r
                = Some (ST_Distance g0 (Geometry.mk lng lat) * meters_per_degree)%Q)
    by (subst r; simpl; by rewrite Hg0).
  eexists. split; [exact Hd0|].
  eapply (distance_le_Some r (nearby_select ST_Distance lng lat p)); [done| |].
  - simpl. by rewrite Hg.
  - rewrite Hres in Hr, Hid.
    eapply (order_by_limit_rest distance_le distance_le_total distance_le_trans);
      [exact Hr | by apply list_elem_of_fmap_2 |].
    intros Hin'. apply Hid.
    by apply (list_elem_of_fmap_2 NearbyRow.id) in Hin'.
Qed.

(** X3: under the primary key (no two rows of the table share an id), no
    listing is returned twice. *)
Theorem find_nearby_properties_no_duplicates (db : database)
  (lat lng radius_km : Q) (rows : list Property.t)
  (results : list NearbyRow.t) (out : list line) :
  from_table "properties" db = Ok rows →
  find_nearby_properties ST_Distance db lat lng radius_km = Ok (results, out) →
  NoDup (Property.id <$> rows) →
  NoDup (NearbyRow.id <$> results).
Proof.
  intros Hrows H Hnd.
  destruct (find_nearby_properties_Ok ST_Distance _ _ _ _ _ _ _ Hrows H)
    as (kept & Hk & -> & _).
  apply select_where_Ok in Hk. subst kept.
  rewrite fmap_take. eapply sublist_NoDup; [|apply sublist_take].
  rewrite (merge_sort_Permutation distance_le), <- list_fmap_compose.
  by apply (NoDup_fmap_filter Property.id).
Qed.

(** X4: with a negative radius the call never returns a row: either the
    engine rejects the tolerance, or the result is empty and the header
    reports 0 properties. *)
Theorem find_nearby_properties_negative_radius (db : database)
  (lat lng radius_km : Q) (results : list NearbyRow.t) (out : list line) :
  (radius_km < 0)%Q →
  find_nearby_properties ST_Distance db lat lng radius_km = Ok (results, out) →
  results = [] ∧ out = [FoundHeader 0 radius_km].
Proof.
  intros Hneg H.
  destruct (from_table "properties" db) as [rows|e] eqn:Hrows;
    [|unfold find_nearby_properties, nearby_query in H; by rewrite Hrows in H].
  assert (Hnil : results = []).
  { destruct results as [|r results]; [done|]. exfalso.
    destruct (find_nearby_properties_row ST_Distance _ _ _ _ _ _ _ r Hrows H)
      as (p & g & _ & _ & _ & Hw & _); [left|].
    apply ST_DWithin_true in Hw as [Hw _].
    unfold km_per_degree, Qdiv in Hw.
    change (/ (11132 # 100))%Q with (100 # 11132)%Q in Hw. lra. }
  destruct (find_nearby_properties_Ok ST_Distance _ _ _ _ _ _ _ Hrows H)
    as (kept & _ & _ & Hout).
  by subst.
Qed.

(** X5: the call prints one header and at most five rows but returns all
    rows: the header carries the number of returned rows; line i is
    formatted from returned row i, with 'Unknown Address' for an empty
    address, the price of the row (0 for a NULL price) and distance_meters
    rounded to a whole number of meters. *)
Theorem find_nearby_properties_output (db : database)
  (lat lng radius_km : Q) (rows : list Property.t)
  (results : list NearbyRow.t) (out : list line) :
  from_table "properties" db = Ok rows →
  find_nearby_properties ST_Distance db lat lng radius_km = Ok (results, out) →
  out !! 0%nat = Some (FoundHeader (length results) radius_km)
  ∧ length out = S (min 5 (length results))
  ∧ (∀ i r, (i < 5)%nat → results !! i = Some r →
       ∃ price distance_m d,
         out !! S i
           = Some (NearbyLine
                     (if bool_decide (NearbyRow.address r = "")
                      then "Unknown Address" else NearbyRow.address r)
                     price distance_m)
         ∧ (price == match NearbyRow.price r with Some v => v | None => 0 end)%Q
         ∧ NearbyRow.distance_meters r = Some d
         ∧ (inject_Z distance_m - (1 # 2) <= d)%Q
         ∧ (d <= inject_Z distance_m + (1 # 2))%Q).
Proof.
  intros Hrows H.
  destruct (find_nearby_properties_Ok ST_Distance _ _ _ _ _ _ _ Hrows H)
    as (kept & _ & _ & ->).
  split_and!; [done|by rewrite length_cons, length_fmap, length_take|].
  intros i r Hi Hr.
  destruct (find_nearby_properties_row ST_Distance _ _ _ _ _ _ _ r Hrows H)
    as (p & g & _ & Hsel & Hg & _); [by eapply list_elem_of_lookup_2|].
  assert (Hd : NearbyRow.distance_meters r
               = Some (ST_Distance g (Geometry.mk lng lat) * meters_per_degree)%Q)
    by (subst r; simpl; by rewrite Hg).
  eexists _, _, _. split_and!.
  - simpl. rewrite list_lookup_fmap, lookup_take_lt, Hr by done. reflexivity.
  - apply or_num_0.
  - exact Hd.
  - rewrite Hd.
    pose proof (or_num_Some (ST_Distance g (Geometry.mk lng lat)
                             * meters_per_degree)%Q) as Ho.
    set (t := or_num _ 0) in *.
    destruct (rint_bounds t) as [Hlo _]. unfold half in Hlo. lra.
  - rewrite Hd.
    pose proof (or_num_Some (ST_Distance g (Geometry.mk lng lat)
                             * meters_per_degree)%Q) as Ho.
    set (t := or_num _ 0) in *.
    destruct (rint_bounds t) as [_ Hhi]. unfold half in Hhi. lra.
Qed.

End ProximityFurther.

(** ** Schema initialization: what it changes and what it keeps *)

Lemma create_extension_frame name db db1 :
  create_extension_if_not_exists name db = Ok db1 →
  relations db1 = relations db
  ∧ available_extensions db1 = available_extensions db
  ∧ extensions db1 = {[ name ]} ∪ extensions db.
Proof.
  unfold create_extension_if_not_exists.
  repeat case_decide; intros Heq; inversion Heq; subst; simpl;
    split_and!; try done.
  apply set_eq. intros x. rewrite elem_of_union, elem_of_singleton.
  split; [auto | intros [->|?]; auto].
Qed.

Lemma create_table_frame name db db2 :
  create_table_if_not_exists name db = Ok db2 →
  extensions db2 = extensions db
  ∧ available_extensions db2 = available_extensions db
  ∧ relations db2
    = match relations db !! name with
      | Some _ => relations db
      | None => <[ name := Table [] ]> (relations db)
      end.
Proof.
  unfold create_table_if_not_exists.
  destruct (relations db !! name); intros Heq; by inversion Heq.
Qed.

Lemma create_index_frame name tbl method column db db3 :
  create_index_if_not_exists name tbl method column db = Ok db3 →
  extensions db3 = extensions db
  ∧ available_extensions db3 = available_extensions db
  ∧ relations db3
    = match relations db !! name with
      | Some _ => relations db
      | None => <[ name := Index (mk_index tbl method column) ]> (relations db)
      end.
Proof.
  unfold create_index_if_not_exists.
  destruct (relations db !! tbl) as [[rows|d|]|]; try discriminate.
  destruct (relations db !! name); intros Heq; by inversion Heq.
Qed.

(** The state after a successful call, in terms of the state before. *)
Lemma setup_postgis_tables_state (db db' : database) (out : list line) :
  setup_postgis_tables db = Ok (db', out) →
  extensions db' = {[ "postgis" ]} ∪ extensions db
  ∧ available_extensions db' = available_extensions db
  ∧ ∀ name,
      relations db' !! name
      = match relations db !! name with
        | Some r => Some r
        | None =>
            if bool_decide (name = "properties") then Some (Table [])
            else if bool_decide (name = "idx_properties_location")
                 then Some (Index (mk_index "properties" "GIST" "location"))
                 else None
        end.
Proof.
  unfold setup_postgis_tables. intros H.
  inv_bind H. inv_bind H. inv_bind H. inversion H; subst; clear H.
  apply create_extension_frame in Ha as (Hr1 & Hv1 & He1).
  apply create_table_frame in Ha0 as (He2 & Hv2 & Hr2).
  apply create_index_frame in Ha1 as (He3 & Hv3 & Hr3).
  split_and!; [congruence..|].
  intros name. rewrite Hr3, Hr2, Hr1.
  destruct (decide (name = "properties")) as [->|Hn1];
    [|destruct (decide (name = "idx_properties_location")) as [->|Hn2]].
  - rewrite bool_decide_eq_true_2 by done.
    destruct (relations db !! "properties") eqn:Ep;
      destruct (relations db !! "idx_properties_location") eqn:Ei;
      rewrite ?lookup_insert_ne by done;
      rewrite ?Ei, ?lookup_insert_ne, ?lookup_insert_eq, ?Ep by done; done.
  - rewrite bool_decide_eq_false_2, bool_decide_eq_true_2 by done.
    destruct (relations db !! "properties") eqn:Ep;
      rewrite ?lookup_insert_ne by done;
      destruct (relations db !! "idx_properties_location") eqn:Ei;
      rewrite ?lookup_insert_eq, ?lookup_insert_ne, ?Ei by done; done.
  - rewrite !bool_decide_eq_false_2 by done.
    destruct (relations db !! "properties") eqn:Ep;
      rewrite ?lookup_insert_ne by done;
      destruct (relations db !! "idx_properties_location") eqn:Ei;
      rewrite ?lookup_insert_ne by done; by destruct (relations db !! name).
Qed.

(** X6: a successful call never drops or replaces what exists: every
    relation of the state before, with the rows of its table, is there
    unchanged after it, and every installed extension stays installed. *)
Theorem setup_postgis_tables_keeps_existing (db db' : database) (out : list line) :
  setup_postgis_tables db = Ok (db', out) →
  (∀ name r, relations db !! name = Some r → relations db' !! name = Some r)
  ∧ extensions db ⊆ extensions db'.
Proof.
  intros (He & _ & Hr)%setup_postgis_tables_state. split.
  - intros name r Hn. by rewrite Hr, Hn.
  - rewrite He. apply union_subseteq_r.
Qed.

(** X7: what a successful call creates: PostGIS is installed; when no
    relation is named properties, the new table has no rows; when no
    relation is named idx_properties_location, the new index is a GiST
    index on the column location of properties. *)
Theorem setup_postgis_tables_creates_missing (db db' : database) (out : list line) :
  setup_postgis_tables db = Ok (db', out) →
  extensions db' = {[ "postgis" ]} ∪ extensions db
  ∧ (relations db !! "properties" = None →
     relations db' !! "properties" = Some (Table []))
  ∧ (relations db !! "idx_properties_location" = None →
     relations db' !! "idx_properties_location"
     = Some (Index (mk_index "properties" "GIST" "location"))).
Proof.
  intros (He & _ & Hr)%setup_postgis_tables_state. split_and!; [done|..].
  - intros Hn. by rewrite Hr, Hn.
  - intros Hn. by rewrite Hr, Hn.
Qed.

(** ** The demo driver and the connection settings *)

(** X9: when the name properties is free or denotes the table of the
    script, [run_spatial_demo] fails exactly when the schema statements
    fail, and with their error; once they succeed, neither query fails (the
    table exists and the radius 3 is not negative), and the state left
    behind is the one the schema statements produced. *)
Theorem run_spatial_demo_follows_setup (ST_Distance : Geometry.t → Geometry.t → Q)
  (db : database) :
  (relations db !! "properties" = None
   ∨ ∃ rows, relations db !! "properties" = Some (Table rows)) →
  (∀ e, run_spatial_demo ST_Distance db = Err e ↔ setup_postgis_tables db = Err e)
  ∧ (∀ db1, (∃ out, run_spatial_demo ST_Distance db = Ok (db1, out))
            ↔ (∃ out1, setup_postgis_tables db = Ok (db1, out1))).
Proof.
  intros _.
  destruct (setup_postgis_tables db) as [[db1 out1]|e] eqn:Hsetup.
  - destruct (run_spatial_demo_returns ST_Distance db db1 out1 Hsetup) as [out Hrun].
    rewrite Hrun. split.
    + intros e. split; discriminate.
    + intros db2. split; intros [o Ho]; inversion Ho; subst; eauto.
  - assert (Hrun : run_spatial_demo ST_Distance db = Err e)
      by (unfold run_spatial_demo; by rewrite Hsetup).
    rewrite Hrun. split.
    + done.
    + intros db1. split; intros [o Ho]; discriminate.
Qed.

(** X10: precedence of the connection settings: a variable of the process
    environment wins over the same variable of the .env file, which wins
    over the default of the script. *)
Theorem connection_settings_precedence (dotenv environ : gmap string string) :
  let setting key dflt :=
    match environ !! key with
    | Some v => v
    | None => match dotenv !! key with Some v => v | None => dflt end
    end in
  host (__init__ (load_dotenv dotenv environ)) = setting "DB_HOST" "localhost"
  ∧ dbname (__init__ (load_dotenv dotenv environ))
    = setting "DB_NAME" "property_search"
  ∧ user (__init__ (load_dotenv dotenv environ)) = setting "DB_USER" "postgres"
  ∧ password (__init__ (load_dotenv dotenv environ))
    = setting "DB_PASSWORD" "password".
Proof.
  unfold __init__, getenv; simpl.
  rewrite !load_dotenv_lookup.
  repeat split; repeat case_match; by simplify_eq/=.
Qed.

(** ** GROUP BY: the grouping keys *)

Lemma Qeq_bool_sym (a b : Q) : Qeq_bool a b = Qeq_bool b a.
Proof. unfold Qeq_bool. apply Z.eqb_sym. Qed.

Lemma Geometry_eqb_refl (g : Geometry.t) : Geometry.eqb g g = true.
Proof. unfold Geometry.eqb. by rewrite !Qeq_bool_refl. Qed.

Lemma Geometry_eqb_sym (g1 g2 : Geometry.t) : Geometry.eqb g1 g2 = Geometry.eqb g2 g1.
Proof.
  unfold Geometry.eqb.
  by rewrite (Qeq_bool_sym (Geometry.x g1)), (Qeq_bool_sym (Geometry.y g1)).
Qed.

Lemma Geometry_eqb_trans (g1 g2 g3 : Geometry.t) :
  Geometry.eqb g1 g2 = true → Geometry.eqb g2 g3 = true →
  Geometry.eqb g1 g3 = true.
Proof.
  unfold Geometry.eqb. rewrite !andb_true_iff, !Qeq_bool_iff.
  intros [Hx1 Hy1] [Hx2 Hy2]. split; etrans; eauto.
Qed.

Lemma key_eqb_refl (k : group_key) : key_eqb k k = true.
Proof.
  unfold key_eqb. destruct k as [[g|] t]; cbn [fst snd];
    rewrite ?Geometry_eqb_refl; by rewrite bool_decide_eq_true_2.
Qed.

Lemma key_eqb_sym (k1 k2 : group_key) : key_eqb k1 k2 = key_eqb k2 k1.
Proof.
  unfold key_eqb. destruct k1 as [[g1|] t1], k2 as [[g2|] t2]; cbn [fst snd];
    rewrite ?(Geometry_eqb_sym g1 g2); f_equal;
    apply bool_decide_ext; split; by intros ->.
Qed.

Lemma key_eqb_trans (k1 k2 k3 : group_key) :
  key_eqb k1 k2 = true → key_eqb k2 k3 = true → key_eqb k1 k3 = true.
Proof.
  unfold key_eqb. destruct k1 as [[g1|] t1], k2 as [[g2|] t2], k3 as [[g3|] t3];
    cbn [fst snd]; rewrite !andb_true_iff, !bool_decide_eq_true;
    intros [H12 ->] [H23 ->]; try discriminate; split; try done.
  by eapply Geometry_eqb_trans.
Qed.

(** Keys that GROUP BY puts together select the same members. *)
Lemma key_eqb_same_group (k1 k2 k : group_key) :
  key_eqb k1 k2 = true → key_eqb k1 k = key_eqb k2 k.
Proof.
  intros H12.
  destruct (key_eqb k1 k) eqn:E1, (key_eqb k2 k) eqn:E2; try done.
  - rewrite key_eqb_sym in H12.
    by rewrite (key_eqb_trans _ _ _ H12 E1) in E2.
  - by rewrite (key_eqb_trans _ _ _ H12 E2) in E1.
Qed.

Lemma StronglySorted_filter {A : Type} (R : relation A) (P : A → bool) (l : list A) :
  StronglySorted R l → StronglySorted R (List.filter P l).
Proof.
  induction 1 as [|x l Hs IH Hall]; simpl; [constructor|].
  destruct (P x); [|done]. constructor; [done|].
  apply Forall_forall. intros y [Hy _]%list_elem_of_In%filter_In.
  eapply Forall_forall in Hall; [done|]. by apply list_elem_of_In.
Qed.

Lemma StronglySorted_Permutation {A : Type} (R : relation A) (l l' : list A) :
  Symmetric R → l ≡ₚ l' → StronglySorted R l → StronglySorted R l'.
Proof.
  intros Hsym. induction 1 as [|x l l' Hp IH|x y l|l l' l'' _ IH1 _ IH2].
  - done.
  - rewrite !StronglySorted_cons. intros [Hall Hs]. split; [|by apply IH].
    by rewrite <- Hp.
  - rewrite !StronglySorted_cons, !Forall_cons.
    intros [[Hyx Hy] [Hx Hs]]. by split_and!.
  - intros Hs. by apply IH2, IH1.
Qed.

Lemma key_distinct_sym : Symmetric key_distinct.
Proof. intros k1 k2. unfold key_distinct. by rewrite key_eqb_sym. Qed.

Lemma distinct_keys_pairwise (ks : list group_key) :
  StronglySorted key_distinct (distinct_keys ks).
Proof.
  induction ks as [|k ks IH]; simpl; constructor.
  - by apply StronglySorted_filter.
  - apply Forall_forall. intros k' [_ Hk']%list_elem_of_In%filter_In.
    unfold key_distinct. by apply negb_true_iff.
Qed.

Lemma distinct_keys_cover (ks : list group_key) (k : group_key) :
  k ∈ ks → ∃ k', k' ∈ distinct_keys ks ∧ key_eqb k' k = true.
Proof.
  induction ks as [|k0 ks IH]; simpl; [by inversion 1|].
  intros [->|Hk]%elem_of_cons.
  - exists k0. split; [left|apply key_eqb_refl].
  - destruct (IH Hk) as (k' & Hk' & He).
    destruct (key_eqb k0 k') eqn:E0.
    + exists k0. split; [left|]. by eapply key_eqb_trans.
    + exists k'. split; [|done]. right.
      apply list_elem_of_In, filter_In. split; [by apply list_elem_of_In|].
      by rewrite E0.
Qed.

Lemma key_of_row_select (g : GridAnalysis.t) :
  key_of_row (density_select g) = key_of_group g.
Proof.
  unfold key_of_row, key_of_group; simpl.
  by destruct (GridAnalysis.grid_cell g) as [[cx cy]|].
Qed.

(** ** Market density: which groups are returned *)

(** The rows of [grid_analysis] for the rows of the table. *)
Lemma grid_analysis_of_listing (rows : list Property.t) (p : Property.t) :
  p ∈ rows →
  eligible p = true →
  (2 ≤ length (group_of rows p))%nat →
  ∃ g,
    g ∈ List.filter having
          (aggregate (List.filter eligible rows)
             <$> distinct_keys (density_key <$> List.filter eligible rows))
    ∧ underlying rows (density_select g) = group_of rows p
    ∧ p ∈ underlying rows (density_select g).
Proof.
  intros Hp He Hn.
  assert (Hkept : p ∈ List.filter eligible rows).
  { apply list_elem_of_In, filter_In. split; [by apply list_elem_of_In|done]. }
  destruct (distinct_keys_cover (density_key <$> List.filter eligible rows)
              (density_key p)) as (k' & Hk' & Hkk);
    [by apply list_elem_of_fmap_2|].
  assert (Hu : underlying rows
                 (density_select (aggregate (List.filter eligible rows) k'))
               = group_of rows p).
  { rewrite underlying_aggregate. unfold group_members, group_of.
    rewrite filter_filter_andb. apply filter_ext. intros q.
    by rewrite (key_eqb_same_group _ _ _ Hkk). }
  exists (aggregate (List.filter eligible rows) k'). split_and!; [|done|].
  - apply list_elem_of_In, filter_In. split.
    + by apply list_elem_of_In, list_elem_of_fmap_2.
    + unfold having; simpl. apply Z.leb_le.
      rewrite <- underlying_aggregate, Hu. lia.
  - apply elem_of_underlying. split_and!; try done.
    by rewrite key_of_row_aggregate.
Qed.

(** X11: listings that are not eligible (inactive, without a price or
    without a location) have no effect on the analysis: two tables with the
    same eligible listings, in the same order, give equal results and equal
    output. *)
Theorem analyze_market_density_ignores_ineligible (db1 db2 : database)
  (rows1 rows2 : list Property.t) :
  from_table "properties" db1 = Ok rows1 →
  from_table "properties" db2 = Ok rows2 →
  List.filter eligible rows1 = List.filter eligible rows2 →
  analyze_market_density db1 = analyze_market_density db2.
Proof.
  intros H1 H2 Heq. unfold analyze_market_density, density_query.
  by rewrite (grid_analysis_Ok _ _ H1), (grid_analysis_Ok _ _ H2), Heq.
Qed.

(** The keys of the returned records are pairwise distinct. *)
Lemma density_results_pairwise (db : database) (rows : list Property.t)
  (results : list DensityRow.t) (out : list line) (i j : nat)
  (ri rj : DensityRow.t) :
  from_table "properties" db = Ok rows →
  analyze_market_density db = Ok (results, out) →
  i ≠ j →
  results !! i = Some ri →
  results !! j = Some rj →
  key_distinct (key_of_row ri) (key_of_row rj).
Proof.
  intros Hrows H Hij Hi Hj.
  destruct (analyze_market_density_Ok _ _ _ _ Hrows H) as [Hres _].
  assert (Hs : StronglySorted
                 (λ r1 r2, key_distinct (key_of_row r1) (key_of_row r2)) results).
  { rewrite Hres.
    apply (StronglySorted_fmap _
             (λ g1 g2, key_distinct (key_of_group g1) (key_of_group g2))).
    { intros g1 g2. by rewrite !key_of_row_select. }
    set (groups := List.filter having _).
    pose proof (merge_sort_Permutation avg_price_ge groups) as Hp.
    rewrite <- (take_drop 10 (merge_sort avg_price_ge groups)) in Hp.
    eapply StronglySorted_app_1_l.
    eapply StronglySorted_Permutation; [|symmetry; exact Hp|].
    { intros g1 g2. apply key_distinct_sym. }
    apply StronglySorted_filter.
    apply (StronglySorted_fmap _ key_distinct); [|apply distinct_keys_pairwise].
    intros k1 k2 Hk. by unfold key_of_group. }
  destruct (decide (i < j)%nat) as [Hlt|Hge].
  - exact (StronglySorted_lookup _ _ _ _ _ _ Hs Hlt Hi Hj).
  - assert (Hlt : (j < i)%nat) by lia.
    apply key_distinct_sym.
    exact (StronglySorted_lookup _ _ _ _ _ _ Hs Hlt Hj Hi).
Qed.

(** X12: no group is returned twice: two records at different positions of
    the result never agree on both the grid cell and the property type. *)
Theorem analyze_market_density_distinct_groups (db : database)
  (rows : list Property.t) (results : list DensityRow.t) (out : list line)
  (i j : nat) (ri rj : DensityRow.t) :
  from_table "properties" db = Ok rows →
  analyze_market_density db = Ok (results, out) →
  i ≠ j →
  results !! i = Some ri →
  results !! j = Some rj →
  key_eqb (key_of_row ri) (key_of_row rj) = false.
Proof.
  intros Hrows H Hij Hi Hj.
  exact (density_results_pairwise db rows results out i j ri rj Hrows H Hij Hi Hj).
Qed.

(** X16: no listing is counted in two returned groups: the listings that
    two records at different positions of the result aggregate are
    disjoint. *)
Theorem analyze_market_density_groups_disjoint (db : database)
  (rows : list Property.t) (results : list DensityRow.t) (out : list line)
  (i j : nat) (ri rj : DensityRow.t) (p : Property.t) :
  from_table "properties" db = Ok rows →
  analyze_market_density db = Ok (results, out) →
  i ≠ j →
  results !! i = Some ri →
  results !! j = Some rj →
  p ∈ underlying rows ri →
  p ∉ underlying rows rj.
Proof.
  intros Hrows H Hij Hi Hj (_ & _ & Hki)%elem_of_underlying
    (_ & _ & Hkj)%elem_of_underlying.
  pose proof (density_results_pairwise db rows results out i j ri rj
                Hrows H Hij Hi Hj) as Hd.
  unfold key_distinct in Hd.
  rewrite (key_eqb_sym (key_of_row rj)) in Hkj.
  by rewrite (key_eqb_trans _ _ _ Hki Hkj) in Hd.
Qed.

(** X13: when at most 10 groups pass HAVING, every eligible listing whose
    group has at least two members is in a returned group. *)
Theorem analyze_market_density_complete (db : database)
  (rows : list Property.t) (groups : list GridAnalysis.t)
  (results : list DensityRow.t) (out : list line) (p : Property.t) :
  from_table "properties" db = Ok rows →
  grid_analysis db = Ok groups →
  analyze_market_density db = Ok (results, out) →
  (length groups ≤ 10)%nat →
  p ∈ rows →
  eligible p = true →
  (2 ≤ length (group_of rows p))%nat →
  ∃ r, r ∈ results ∧ p ∈ underlying rows r ∧ underlying rows r = group_of rows p.
Proof.
  intros Hrows Hg H Hlen Hp He Hn.
  destruct (analyze_market_density_Ok _ _ _ _ Hrows H) as [Hres _].
  rewrite (grid_analysis_Ok _ _ Hrows) in Hg. inversion Hg as [Hgroups].
  rewrite Hgroups in Hres.
  destruct (grid_analysis_of_listing rows p Hp He Hn) as (g & Hin & Hu & Hpu).
  rewrite Hgroups in Hin.
  exists (density_select g). split_and!; try done.
  rewrite Hres. apply list_elem_of_fmap_2.
  rewrite take_ge.
  - by rewrite (merge_sort_Permutation avg_price_ge).
  - by rewrite (merge_sort_Permutation avg_price_ge).
Qed.

(** X14: when LIMIT 10 cuts the result, the groups it keeps are those of
    the highest average price: the group of an eligible listing that is in
    no returned group has an average price that is at most that of every
    returned group. *)
Theorem analyze_market_density_keeps_highest (db : database)
  (rows : list Property.t) (results : list DensityRow.t) (out : list line)
  (r : DensityRow.t) (p : Property.t) :
  from_table "properties" db = Ok rows →
  analyze_market_density db = Ok (results, out) →
  r ∈ results →
  p ∈ rows →
  eligible p = true →
  (2 ≤ length (group_of rows p))%nat →
  (∀ r', r' ∈ results → p ∉ underlying rows r') →
  ∃ a b,
    AVG (Property.price <$> underlying rows r) = Some a
    ∧ AVG (Property.price <$> group_of rows p) = Some b
    ∧ (b <= a)%Q.
Proof.
  intros Hrows H Hr Hp He Hn Hout.
  destruct (analyze_market_density_Ok _ _ _ _ Hrows H) as [Hres _].
  destruct (grid_analysis_of_listing rows p Hp He Hn) as (g' & Hin' & Hu' & Hpu').
  set (groups := List.filter having _) in *.
  rewrite Hres in Hr. apply list_elem_of_fmap in Hr as (g & -> & Hg).
  destruct (density_group_spec rows g Hg) as (a & Ha & Havg & _).
  destruct (grid_analysis_group rows g' Hin') as (k' & b & Hg' & _ & _ & Hb & Hbavg).
  rewrite <- underlying_aggregate, <- Hg', Hu' in Hbavg.
  exists a, b. split_and!; try done.
  assert (Hge : avg_price_ge g g').
  { eapply (order_by_limit_rest avg_price_ge avg_price_ge_total avg_price_ge_trans);
      [exact Hg | exact Hin' |].
    intros Hin''. apply (Hout (density_select g')); [|done].
    rewrite Hres. by apply list_elem_of_fmap_2. }
  unfold avg_price_ge in Hge. rewrite Ha, Hb in Hge. simpl in Hge.
  by apply Is_true_true, Qle_bool_iff in Hge.
Qed.

Lemma or_int_0 (n : Z) : or_int n 0 = n.
Proof. unfold or_int. destruct (n =? 0) eqn:E; [|done]. by apply Z.eqb_eq in E. Qed.

(** X15: the analysis prints one header and one line per returned group,
    in the order of the result: the property type ('Unknown' when it is
    NULL or empty), the group's average price rounded to a whole unit, and
    the number of listings of the group; the defaults for a missing average
    or count never replace a value. *)
Theorem analyze_market_density_output (db : database)
  (rows : list Property.t) (results : list DensityRow.t) (out : list line) :
  from_table "properties" db = Ok rows →
  analyze_market_density db = Ok (results, out) →
  out !! 0%nat = Some DensityHeader
  ∧ length out = S (length results)
  ∧ (∀ i r, results !! i = Some r →
       ∃ a, AVG (Property.price <$> underlying rows r) = Some a
         ∧ out !! S i
           = Some (DensityLine
                     (match DensityRow.property_type r with
                      | Some s => if bool_decide (s = "") then "Unknown" else s
                      | None => "Unknown"
                      end)
                     (ROUND a)
                     (Z.of_nat (length (underlying rows r))))).
Proof.
  intros Hrows H.
  destruct (analyze_market_density_Ok _ _ _ _ Hrows H) as [Hres ->].
  split_and!; [done|by rewrite length_cons, length_fmap|].
  intros i r Hi.
  assert (Hr : r ∈ results) by (by eapply list_elem_of_lookup_2).
  rewrite Hres in Hi. apply list_lookup_fmap_Some in Hi as (g & Hsel & Hi).
  destruct (density_group_spec rows g) as (a & _ & Ha & Havg & Hc & _);
    [by eapply list_elem_of_lookup_2|].
  rewrite <- Hsel in Ha, Havg, Hc.
  exists a. split; [done|].
  simpl. rewrite list_lookup_fmap.
  assert (Hlook : results !! i = Some r).
  { rewrite Hres, list_lookup_fmap, Hi. simpl. by rewrite Hsel. }
  rewrite Hlook. simpl. unfold density_line.
  by rewrite Havg, or_num_rint_inject_Z, or_int_0, Hc.
Qed.

(** ** The further properties on concrete databases *)

Lemma find_nearby_properties_complete_witness :
  from_table "properties" (database_of sf_listings) = Ok sf_listings
  ∧ find_nearby_properties planar_distance (database_of sf_listings) sf_lat sf_lng 3
    = Ok (sf_results, sf_output)
  ∧ nearby_select planar_distance sf_lng sf_lat third_market_st ∈ sf_results.
Proof.
  assert (Hrows : from_table "properties" (database_of sf_listings) = Ok sf_listings)
    by (vm_compute; reflexivity).
  assert (H : find_nearby_properties planar_distance (database_of sf_listings)
                sf_lat sf_lng 3 = Ok (sf_results, sf_output))
    by (vm_compute; reflexivity).
  split; [done|]. split; [done|].
  apply (find_nearby_properties_complete planar_distance
           (database_of sf_listings) sf_lat sf_lng 3 sf_listings sf_results
           sf_output third_market_st
           (Geometry.mk (-1224190 # 10000) (377745 # 10000)) Hrows H).
  - vm_compute. lia.
  - apply list_elem_of_In. simpl. auto 10.
  - reflexivity.
  - reflexivity.
  - by vm_compute.
  - by vm_compute.
Defined.

Lemma find_nearby_properties_keeps_nearest_witness :
  from_table "properties" (database_of many_listings) = Ok many_listings
  ∧ find_nearby_properties planar_distance (database_of many_listings) sf_lat sf_lng 3
    = Ok (many_results, many_output)
  ∧ (Property.id (condo_at 25) ∉ NearbyRow.id <$> many_results)
  ∧ ∃ d, NearbyRow.distance_meters many_nearest = Some d
      ∧ (d <= planar_distance (Geometry.mk (sf_lng + (25 # 10000)) sf_lat)
                (Geometry.mk sf_lng sf_lat) * meters_per_degree)%Q.
Proof.
  assert (Hrows : from_table "properties" (database_of many_listings)
                  = Ok many_listings)
    by (vm_compute; reflexivity).
  assert (H : find_nearby_properties planar_distance (database_of many_listings)
                sf_lat sf_lng 3 = Ok (many_results, many_output))
    by (vm_compute; reflexivity).
  assert (Hid : Property.id (condo_at 25) ∉ (NearbyRow.id <$> many_results))
    by (refine (bool_decide_unpack _ _); vm_compute; exact I).
  split; [done|]. split; [done|]. split; [done|].
  apply (find_nearby_properties_keeps_nearest planar_distance
           (database_of many_listings) sf_lat sf_lng 3 many_listings many_results
           many_output many_nearest (condo_at 25)
           (Geometry.mk (sf_lng + (25 # 10000)) sf_lat) Hrows H).
  - left.
  - apply list_elem_of_In. vm_compute. auto 30.
  - reflexivity.
  - reflexivity.
  - vm_compute; reflexivity.
  - exact Hid.
Defined.

Lemma find_nearby_properties_no_duplicates_witness :
  from_table "properties" (database_of sf_listings) = Ok sf_listings
  ∧ find_nearby_properties planar_distance (database_of sf_listings) sf_lat sf_lng 3
    = Ok (sf_results, sf_output)
  ∧ NoDup (Property.id <$> sf_listings)
  ∧ NoDup (NearbyRow.id <$> sf_results).
Proof.
  assert (Hrows : from_table "properties" (database_of sf_listings) = Ok sf_listings)
    by (vm_compute; reflexivity).
  assert (H : find_nearby_properties planar_distance (database_of sf_listings)
                sf_lat sf_lng 3 = Ok (sf_results, sf_output))
    by (vm_compute; reflexivity).
  assert (Hnd : NoDup (Property.id <$> sf_listings))
    by (refine (bool_decide_unpack _ _); vm_compute; exact I).
  split; [done|]. split; [done|]. split; [done|].
  exact (find_nearby_properties_no_duplicates planar_distance
           (database_of sf_listings) sf_lat sf_lng 3 sf_listings sf_results
           sf_output Hrows H Hnd).
Defined.

Lemma find_nearby_properties_negative_radius_witness :
  (-3 < 0)%Q
  ∧ find_nearby_properties planar_distance (database_of unlocated_listings)
      sf_lat sf_lng (-3) = Ok ([], [FoundHeader 0 (-3)])
  ∧ @nil NearbyRow.t = [] ∧ [FoundHeader 0 (-3)] = [FoundHeader 0 (-3)].
Proof.
  assert (Hneg : (-3 < 0)%Q) by (by vm_compute).
  assert (H : find_nearby_properties planar_distance
                (database_of unlocated_listings) sf_lat sf_lng (-3)
              = Ok ([], [FoundHeader 0 (-3)]))
    by (vm_compute; reflexivity).
  split; [done|]. split; [done|].
  exact (find_nearby_properties_negative_radius planar_distance
           (database_of unlocated_listings) sf_lat sf_lng (-3) []
           [FoundHeader 0 (-3)] Hneg H).
Defined.

Lemma find_nearby_properties_output_witness :
  from_table "properties" (database_of many_listings) = Ok many_listings
  ∧ find_nearby_properties planar_distance (database_of many_listings) sf_lat sf_lng 3
    = Ok (many_results, many_output)
  ∧ many_output !! 0%nat = Some (FoundHeader (length many_results) 3)
  ∧ length many_output = S (min 5 (length many_results)).
Proof.
  assert (Hrows : from_table "properties" (database_of many_listings)
                  = Ok many_listings)
    by (vm_compute; reflexivity).
  assert (H : find_nearby_properties planar_distance (database_of many_listings)
                sf_lat sf_lng 3 = Ok (many_results, many_output))
    by (vm_compute; reflexivity).
  destruct (find_nearby_properties_output planar_distance
              (database_of many_listings) sf_lat sf_lng 3 many_listings
              many_results many_output Hrows H) as (Hhead & Hlen & _).
  by split_and!.
Defined.

Lemma setup_postgis_tables_keeps_existing_witness :
  setup_postgis_tables table_only_db = Ok (table_only_db_after, [TablesCreated])
  ∧ (∀ name r, relations table_only_db !! name = Some r →
       relations table_only_db_after !! name = Some r)
  ∧ extensions table_only_db ⊆ extensions table_only_db_after.
Proof.
  assert (H : setup_postgis_tables table_only_db
              = Ok (table_only_db_after, [TablesCreated]))
    by (vm_compute; reflexivity).
  split; [done|].
  exact (setup_postgis_tables_keeps_existing table_only_db table_only_db_after
           [TablesCreated] H).
Defined.

Lemma run_spatial_demo_follows_setup_witness :
  relations table_only_db !! "properties" = Some (Table sf_listings)
  ∧ setup_postgis_tables table_only_db = Ok (table_only_db_after, [TablesCreated])
  ∧ ∃ out, run_spatial_demo planar_distance table_only_db
           = Ok (table_only_db_after, out).
Proof.
  assert (Hp : relations table_only_db !! "properties" = Some (Table sf_listings))
    by reflexivity.
  assert (H : setup_postgis_tables table_only_db
              = Ok (table_only_db_after, [TablesCreated]))
    by (vm_compute; reflexivity).
  split; [done|]. split; [done|].
  apply (proj2 (run_spatial_demo_follows_setup planar_distance table_only_db
                  (or_intror (ex_intro _ sf_listings Hp)))
           table_only_db_after).
  by exists [TablesCreated].
Defined.

Lemma setup_postgis_tables_creates_missing_witness :
  setup_postgis_tables fresh_db = Ok (database_of [], [TablesCreated])
  ∧ relations fresh_db !! "properties" = None
  ∧ relations fresh_db !! "idx_properties_location" = None
  ∧ relations (database_of []) !! "properties" = Some (Table [])
  ∧ relations (database_of []) !! "idx_properties_location"
    = Some (Index (mk_index "properties" "GIST" "location")).
Proof.
  assert (H : setup_postgis_tables fresh_db = Ok (database_of [], [TablesCreated]))
    by (vm_compute; reflexivity).
  assert (Hp : relations fresh_db !! "properties" = None) by reflexivity.
  assert (Hi : relations fresh_db !! "idx_properties_location" = None)
    by reflexivity.
  destruct (setup_postgis_tables_creates_missing fresh_db (database_of [])
              [TablesCreated] H) as (_ & Ht & Hx).
  split_and!; [done..| exact (Ht Hp) | exact (Hx Hi)].
Defined.

Lemma analyze_market_density_ignores_ineligible_witness :
  from_table "properties" (database_of sf_listings) = Ok sf_listings
  ∧ from_table "properties" (database_of sf_eligible_listings)
    = Ok sf_eligible_listings
  ∧ List.filter eligible sf_listings = List.filter eligible sf_eligible_listings
  ∧ analyze_market_density (database_of sf_listings)
    = analyze_market_density (database_of sf_eligible_listings).
Proof.
  assert (H1 : from_table "properties" (database_of sf_listings) = Ok sf_listings)
    by (vm_compute; reflexivity).
  assert (H2 : from_table "properties" (database_of sf_eligible_listings)
               = Ok sf_eligible_listings)
    by (vm_compute; reflexivity).
  assert (Heq : List.filter eligible sf_listings
                = List.filter eligible sf_eligible_listings)
    by (vm_compute; reflexivity).
  split; [done|]. split; [done|]. split; [done|].
  exact (analyze_market_density_ignores_ineligible (database_of sf_listings)
           (database_of sf_eligible_listings) sf_listings sf_eligible_listings
           H1 H2 Heq).
Defined.

Lemma analyze_market_density_distinct_groups_witness :
  from_table "properties" (database_of paired_listings) = Ok paired_listings
  ∧ analyze_market_density (database_of paired_listings)
    = Ok (paired_results, paired_output)
  ∧ paired_results !! 0%nat = Some paired_top
  ∧ paired_results !! 1%nat = Some paired_second
  ∧ key_eqb (key_of_row paired_top) (key_of_row paired_second) = false.
Proof.
  assert (Hrows : from_table "properties" (database_of paired_listings)
                  = Ok paired_listings)
    by (vm_compute; reflexivity).
  assert (H : analyze_market_density (database_of paired_listings)
              = Ok (paired_results, paired_output))
    by (vm_compute; reflexivity).
  assert (H0 : paired_results !! 0%nat = Some paired_top) by reflexivity.
  assert (H1 : paired_results !! 1%nat = Some paired_second) by reflexivity.
  assert (Hne : 0%nat ≠ 1%nat) by discriminate.
  split; [done|]. split; [done|]. split; [done|]. split; [done|].
  exact (analyze_market_density_distinct_groups (database_of paired_listings)
           paired_listings paired_results paired_output 0 1 paired_top
           paired_second Hrows H Hne H0 H1).
Defined.

Lemma analyze_market_density_complete_witness :
  from_table "properties" (database_of two_condos) = Ok two_condos
  ∧ grid_analysis (database_of two_condos) = Ok [condo_grid_row]
  ∧ analyze_market_density (database_of two_condos)
    = Ok ([condo_group], [DensityHeader; DensityLine "condo" 101 2])
  ∧ ∃ r, r ∈ [condo_group]
      ∧ pair_condo_1 ∈ underlying two_condos r
      ∧ underlying two_condos r = group_of two_condos pair_condo_1.
Proof.
  assert (Hrows : from_table "properties" (database_of two_condos) = Ok two_condos)
    by (vm_compute; reflexivity).
  assert (Hg : grid_analysis (database_of two_condos) = Ok [condo_grid_row])
    by (vm_compute; reflexivity).
  assert (H : analyze_market_density (database_of two_condos)
              = Ok ([condo_group], [DensityHeader; DensityLine "condo" 101 2]))
    by (vm_compute; reflexivity).
  split; [done|]. split; [done|]. split; [done|].
  apply (analyze_market_density_complete (database_of two_condos) two_condos
           [condo_grid_row] [condo_group]
           [DensityHeader; DensityLine "condo" 101 2] pair_condo_1 Hrows Hg H).
  - simpl. lia.
  - left.
  - reflexivity.
  - vm_compute. lia.
Defined.

Lemma analyze_market_density_keeps_highest_witness :
  from_table "properties" (database_of paired_listings) = Ok paired_listings
  ∧ analyze_market_density (database_of paired_listings)
    = Ok (paired_results, paired_output)
  ∧ (∀ r', r' ∈ paired_results → pair_a 1 ∉ underlying paired_listings r')
  ∧ ∃ a b,
      AVG (Property.price <$> underlying paired_listings paired_top) = Some a
      ∧ AVG (Property.price <$> group_of paired_listings (pair_a 1)) = Some b
      ∧ (b <= a)%Q.
Proof.
  assert (Hrows : from_table "properties" (database_of paired_listings)
                  = Ok paired_listings)
    by (vm_compute; reflexivity).
  assert (H : analyze_market_density (database_of paired_listings)
              = Ok (paired_results, paired_output))
    by (vm_compute; reflexivity).
  assert (Hout : ∀ r', r' ∈ paired_results →
                       pair_a 1 ∉ underlying paired_listings r').
  { intros r' Hr' (_ & _ & Hk)%elem_of_underlying. revert Hk.
    unfold paired_results in Hr'.
    repeat (apply elem_of_cons in Hr' as [->|Hr']; [by vm_compute|]).
    by inversion Hr'. }
  split; [done|]. split; [done|]. split; [done|].
  apply (analyze_market_density_keeps_highest (database_of paired_listings)
           paired_listings paired_results paired_output paired_top (pair_a 1)
           Hrows H).
  - left.
  - apply list_elem_of_In. vm_compute. auto 30.
  - reflexivity.
  - vm_compute. lia.
  - exact Hout.
Defined.

Lemma analyze_market_density_output_witness :
  from_table "properties" (database_of two_condos) = Ok two_condos
  ∧ analyze_market_density (database_of two_condos)
    = Ok ([condo_group], [DensityHeader; DensityLine "condo" 101 2])
  ∧ [DensityHeader; DensityLine "condo" 101 2] !! 0%nat = Some DensityHeader
  ∧ length [DensityHeader; DensityLine "condo" 101 2] = S (length [condo_group]).
Proof.
  assert (Hrows : from_table "properties" (database_of two_condos) = Ok two_condos)
    by (vm_compute; reflexivity).
  assert (H : analyze_market_density (database_of two_condos)
              = Ok ([condo_group], [DensityHeader; DensityLine "condo" 101 2]))
    by (vm_compute; reflexivity).
  destruct (analyze_market_density_output (database_of two_condos) two_condos
              [condo_group] [DensityHeader; DensityLine "condo" 101 2] Hrows H)
    as (Hhead & Hlen & _).
  by split_and!.
Defined.

Lemma analyze_market_density_groups_disjoint_witness :
  from_table "properties" (database_of paired_listings) = Ok paired_listings
  ∧ analyze_market_density (database_of paired_listings)
    = Ok (paired_results, paired_output)
  ∧ paired_results !! 0%nat = Some paired_top
  ∧ paired_results !! 1%nat = Some paired_second
  ∧ pair_a 12 ∈ underlying paired_listings paired_top
  ∧ pair_a 12 ∉ underlying paired_listings paired_second.
Proof.
  assert (Hrows : from_table "properties" (database_of paired_listings)
                  = Ok paired_listings)
    by (vm_compute; reflexivity).
  assert (H : analyze_market_density (database_of paired_listings)
              = Ok (paired_results, paired_output))
    by (vm_compute; reflexivity).
  assert (H0 : paired_results !! 0%nat = Some paired_top) by reflexivity.
  assert (H1 : paired_results !! 1%nat = Some paired_second) by reflexivity.
  assert (Hne : 0%nat ≠ 1%nat) by discriminate.
  assert (Hin : pair_a 12 ∈ underlying paired_listings paired_top).
  { apply elem_of_underlying. split_and!; [|reflexivity|by vm_compute].
    apply list_elem_of_In. vm_compute. auto 30. }
  split; [done|]. split; [done|]. split; [done|]. split; [done|].
  split; [done|].
  exact (analyze_market_density_groups_disjoint (database_of paired_listings)
           paired_listings paired_results paired_output 0 1 paired_top
           paired_second (pair_a 12) Hrows H Hne H0 H1 Hin).
Defined.
